(** * mistcss: the file pipeline of the command line tool

    A shallow embedding of [src/core.ts] (createFiles, createFile,
    getExtension, getTarget) and of the command line driver that calls it
    (target validation, batch build, orphan cleanup), together with the
    older driver [src/bin.ts] that carries its own copy of createFile.

    JavaScript strings are modelled as [string] (one [ascii] per code unit,
    exact for ASCII paths).  The file system and the console are an explicit
    [World] threaded through every effectful function. *)

From Stdlib Require Import String Ascii ZArith Lia Bool.
From stdpp Require Import base option list strings gmap.

Local Open Scope string_scope.
Local Open Scope Z_scope.

(** ** JavaScript strings and the two regular expressions of the program *)

Module JSString.

Definition chars (s : string) : list ascii := list_ascii_of_string s.
Definition str (l : list ascii) : string := string_of_list_ascii l.

(** [s.slice(start, end)]: negative indices count from the end, both
    are clamped to the string. *)
Definition sliceIndex (len i : Z) : Z :=
  if i <? 0 then Z.max (len + i) 0 else Z.min i len.

Definition slice (s : string) (start end_ : Z) : string :=
  let cs := chars s in
  let len := Z.of_nat (length cs) in
  let from := sliceIndex len start in
  let to := sliceIndex len end_ in
  str (take (Z.to_nat (to - from)) (drop (Z.to_nat from) cs)).

(** The regular expressions the program builds are a sequence of single
    character atoms followed by the end anchor: [/\.css$/] and
    [new RegExp(`.${ext}$`)].  In a pattern source an unescaped dot is
    the wildcard, a backslash makes the next character literal. *)
Inductive Atom : Type :=
| AnyChar
| Lit (c : ascii).

Fixpoint atoms (src : list ascii) : list Atom :=
  match src with
  | [] => []
  | c :: rest =>
      if Ascii.eqb c "\" then
        match rest with
        | [] => []
        | e :: rest' => Lit e :: atoms rest'
        end
      else if Ascii.eqb c "." then AnyChar :: atoms rest
      else Lit c :: atoms rest
  end.

(** The body of an end-anchored pattern [body$]. *)
Definition anchoredBody (src : string) : list Atom :=
  let cs := chars src in
  atoms (take (length cs - 1)%nat cs).

(** The wildcard matches everything but a line terminator. *)
Definition lineTerminator (c : ascii) : bool :=
  Ascii.eqb c "010" || Ascii.eqb c "013".

Definition atomMatches (a : Atom) (c : ascii) : bool :=
  match a with
  | AnyChar => negb (lineTerminator c)
  | Lit l => Ascii.eqb l c
  end.

Fixpoint allMatch (pat : list Atom) (cs : list ascii) : bool :=
  match pat, cs with
  | [], [] => true
  | a :: pat', c :: cs' => atomMatches a c && allMatch pat' cs'
  | _, _ => false
  end.

(** [s.replace(/body$/, replacement)] for a replacement without [$]:
    the body has a fixed width, so the only place it can match is the
    tail of that width. *)
Definition replaceAtEnd (body : list Atom) (replacement s : string) : string :=
  let cs := chars s in
  let k := (length cs - length body)%nat in
  if (length body <=? length cs)%nat && allMatch body (drop k cs)
  then str (take k cs ++ chars replacement)
  else s.

End JSString.

(** ** [path.basename(path, suffix)] of node:path, POSIX flavour *)

Module NodePath.
Import JSString.

Record Scan : Type := mkScan {
  start : Z;
  end_ : Z;
  matchedSlash : bool;
  extIdx : Z;
  firstNonSlashEnd : Z
}.

Definition isSlash (c : ascii) : bool := Ascii.eqb c "/".

(** The loop [for (i = path.length - 1; i >= 0; --i)] of the branch
    with a suffix, first the part of its body for a character that is
    not a slash. *)
Definition visit (suffix : list ascii) (i : Z) (code : ascii) (st : Scan) : Scan :=
  let st1 :=
    if firstNonSlashEnd st =? -1
    then mkScan (start st) (end_ st) false (extIdx st) (i + 1)
    else st in
  if 0 <=? extIdx st1 then
    if bool_decide (suffix !! Z.to_nat (extIdx st1) = Some code) then
      let x := extIdx st1 - 1 in
      if x =? -1
      then mkScan (start st1) i (matchedSlash st1) x (firstNonSlashEnd st1)
      else mkScan (start st1) (end_ st1) (matchedSlash st1) x (firstNonSlashEnd st1)
    else mkScan (start st1) (firstNonSlashEnd st1) (matchedSlash st1) (-1)
                (firstNonSlashEnd st1)
  else st1.

(** The characters still to visit are passed in reverse, so the head is
    [path[i]] and [i] is the length of the rest; a slash after the first
    other character is the [break]. *)
Fixpoint scanSuffix (suffix : list ascii) (rpath : list ascii) (st : Scan) : Scan :=
  match rpath with
  | [] => st
  | code :: rest =>
      let i := Z.of_nat (length rest) in
      if isSlash code then
        if negb (matchedSlash st)
        then mkScan (i + 1) (end_ st) (matchedSlash st) (extIdx st) (firstNonSlashEnd st)
        else scanSuffix suffix rest st
      else scanSuffix suffix rest (visit suffix i code st)
  end.

(** The loop of the branch without a usable suffix; it keeps only
    [start], [end] and [matchedSlash]. *)
Fixpoint scanPlain (rpath : list ascii) (st : Scan) : Scan :=
  match rpath with
  | [] => st
  | code :: rest =>
      let i := Z.of_nat (length rest) in
      if isSlash code then
        if negb (matchedSlash st)
        then mkScan (i + 1) (end_ st) (matchedSlash st) (extIdx st) (firstNonSlashEnd st)
        else scanPlain rest st
      else if end_ st =? -1
      then scanPlain rest (mkScan (start st) (i + 1) false (extIdx st) (firstNonSlashEnd st))
      else scanPlain rest st
  end.

Definition basename (path suffix : string) : string :=
  let p := chars path in
  let s := chars suffix in
  let plen := Z.of_nat (length p) in
  let slen := Z.of_nat (length s) in
  if (0 <? slen) && (slen <=? plen) then
    if String.eqb suffix path then ""
    else
      let st := scanSuffix s (rev p) (mkScan 0 (-1) true (slen - 1) (-1)) in
      let e :=
        if start st =? end_ st then firstNonSlashEnd st
        else if end_ st =? -1 then plen
        else end_ st in
      slice path (start st) e
  else
    let st := scanPlain (rev p) (mkScan 0 (-1) true (-1) (-1)) in
    if end_ st =? -1 then ""
    else slice path (start st) (end_ st).

(** The directory part of a relative path: empty, or ending in a
    slash. *)
Definition isDirPrefix (dir : string) : Prop :=
  dir = "" \/ exists d, dir = d +:+ "/".

End NodePath.

(** ** Values shared by the three source files *)

(** [type Extension = '.tsx' | '.astro' | '.svelte'] *)
Inductive Extension : Type :=
| ext_tsx
| ext_astro
| ext_svelte.

(** The string an [Extension] is at run time. *)
Definition extString (ext : Extension) : string :=
  match ext with
  | ext_tsx => ".tsx"
  | ext_astro => ".astro"
  | ext_svelte => ".svelte"
  end.

(** [type Target = 'react' | 'hono' | 'astro' | 'vue' | 'svelte'] *)
Inductive Target : Type :=
| react
| hono
| astro
| vue
| svelte.

(** The string a [Target] is at run time. *)
Definition targetString (target : Target) : string :=
  match target with
  | react => "react"
  | hono => "hono"
  | astro => "astro"
  | vue => "vue"
  | svelte => "svelte"
  end.

#[global] Instance Extension_eq_dec : EqDecision Extension.
Proof. solve_decision. Defined.

#[global] Instance Target_eq_dec : EqDecision Target.
Proof. solve_decision. Defined.

(** A thrown value: an [Error] object with its message, or anything else
    (what [e instanceof Error] tells apart). *)
Inductive Thrown : Type :=
| ErrorObject (message : string)
| OtherValue (shown : string).

(** How a synchronous call completes. *)
Inductive Completion (A : Type) : Type :=
| Normal (a : A)
| Throw (e : Thrown).
Arguments Normal {A} a.
Arguments Throw {A} e.

(** How a promise settles. *)
Inductive Settled (A : Type) : Type :=
| Fulfilled (a : A)
| Rejected (e : Thrown).
Arguments Fulfilled {A} a.
Arguments Rejected {A} e.

(** The four renderer modules. *)
Inductive Renderer : Type :=
| reactRenderer
| astroRenderer
| vueRenderer
| svelteRenderer.

(** One invocation of a renderer: which module, the component name, the
    schema and, for the react renderer, the optional third argument. *)
Record RenderCall (Data : Type) : Type := mkRenderCall {
  renderer : Renderer;
  componentName : string;
  schema : Data;
  flavor : option bool
}.
Arguments mkRenderCall {Data} _ _ _ _.
Arguments renderer {Data} _.
Arguments componentName {Data} _.
Arguments schema {Data} _.
Arguments flavor {Data} _.

(** What the program does to the outside, in the order it happens. *)
Inductive Event (Data : Type) : Type :=
| console_error (line : string)
| console_error_value (e : Thrown)
| console_log (line : string)
| render_call (c : RenderCall Data)
| writeFile_call (path data : string) (flush : bool)
| unlink_call (path : string)
| unhandled_rejection (e : Thrown).
Arguments console_error {Data} line.
Arguments console_error_value {Data} e.
Arguments console_log {Data} line.
Arguments render_call {Data} c.
Arguments writeFile_call {Data} path data flush.
Arguments unlink_call {Data} path.
Arguments unhandled_rejection {Data} e.

(** The world the program runs in: the regular files with their text, the
    paths the operating system refuses to write (with the message of the
    error it answers), and the trace of events so far. *)
Record World (Data : Type) : Type := mkWorld {
  files : gmap string string;
  denied : gmap string string;
  output : list (Event Data)
}.
Arguments mkWorld {Data} _ _ _.
Arguments files {Data} _.
Arguments denied {Data} _.
Arguments output {Data} _.

(** The modules the three files import and that are not part of them:
    the parser, the four renderers and globby.  A renderer or the parser
    returns its text or throws; [Data] values are objects. *)
Class Imports (Data : Type) : Type := {
  parse : string -> Completion (list Data);
  reactRender : string -> Data -> option bool -> Completion string;
  astroRender : string -> Data -> Completion string;
  vueRender : string -> Data -> Completion string;
  svelteRender : string -> Data -> Completion string;
  globby : string -> gmap string string -> list string
}.

(** ** Effectful code: a state monad over the world

    An asynchronous operation is run to its settlement at the point where
    it is started, and its result is the settlement of its promise. *)

Definition IO (Data A : Type) : Type := World Data -> A * World Data.

#[global] Instance IO_ret {Data} : MRet (IO Data) :=
  fun A (a : A) w => (a, w).

#[global] Instance IO_bind {Data} : MBind (IO Data) :=
  fun A B (k : A -> IO Data B) (m : IO Data A) w => let '(a, w1) := m w in k a w1.

(** [array.map(f)] with an effectful callback, left to right. *)
Fixpoint mapM {Data A B} (f : A -> IO Data B) (l : list A) : IO Data (list B) :=
  match l with
  | [] => mret []
  | a :: l' => b ← f a; bs ← mapM f l'; mret (b :: bs)
  end.

Definition record {Data} (e : Event Data) (w : World Data) : World Data :=
  mkWorld (files w) (denied w) (output w ++ [e]).

Definition emit {Data} (e : Event Data) : IO Data unit :=
  fun w => (tt, record e w).

(** [Promise.all]: the values in order, or the first rejection. *)
Fixpoint Promise_all {A} (ps : list (Settled A)) : Settled (list A) :=
  match ps with
  | [] => Fulfilled []
  | Rejected e :: _ => Rejected e
  | Fulfilled a :: ps' =>
      match Promise_all ps' with
      | Fulfilled l => Fulfilled (a :: l)
      | Rejected e => Rejected e
      end
  end.

(** [p.then(f)] for a callback that does not throw. *)
Definition then_ {A B} (p : Settled A) (f : A -> B) : Settled B :=
  match p with
  | Fulfilled a => Fulfilled (f a)
  | Rejected e => Rejected e
  end.

(** A promise nobody listens to ([void p], or a call used as a
    statement): a rejection stays unhandled. *)
Definition discard {Data A} (p : Settled A) : IO Data unit :=
  match p with
  | Fulfilled _ => mret tt
  | Rejected e => emit (unhandled_rejection e)
  end.

Module fs.
Definition existsSync {Data} (path : string) : IO Data bool :=
  fun w => (bool_decide (is_Some (files w !! path)), w).

Definition noEntry (syscall path : string) : Thrown :=
  ErrorObject ("ENOENT: no such file or directory, " +:+ syscall +:+ " '" +:+ path +:+ "'").

Definition readFileSync {Data} (path : string) : IO Data (Completion string) :=
  fun w =>
    match files w !! path with
    | Some text => (Normal text, w)
    | None => (Throw (noEntry "open" path), w)
    end.
End fs.

Module fsPromises.
Definition readFile {Data} (path : string) : IO Data (Settled string) :=
  fun w =>
    match files w !! path with
    | Some text => (Fulfilled text, w)
    | None => (Rejected (fs.noEntry "open" path), w)
    end.

Definition writeFile {Data} (path data : string) (flush : bool) : IO Data (Settled unit) :=
  fun w0 =>
    let w := record (writeFile_call path data flush) w0 in
    match denied w !! path with
    | Some message => (Rejected (ErrorObject message), w)
    | None => (Fulfilled tt, mkWorld (<[path := data]> (files w)) (denied w) (output w))
    end.

Definition unlink {Data} (path : string) : IO Data (Settled unit) :=
  fun w0 =>
    let w := record (unlink_call path) w0 in
    match files w !! path with
    | Some _ => (Fulfilled tt, mkWorld (delete path (files w)) (denied w) (output w))
    | None => (Rejected (fs.noEntry "unlink" path), w)
    end.
End fsPromises.

(** The [catch] block that core.ts and both drivers repeat. *)
Definition reportError {Data} (mist : string) (e : Thrown) : IO Data unit :=
  match e with
  | ErrorObject message => emit (console_error ("Error " +:+ mist +:+ ": " +:+ message))
  | OtherValue _ =>
      emit (console_error ("Error " +:+ mist));;
      emit (console_error_value e)
  end.

(** ** src/core.ts *)

Module core.
Section core.
Context {Data : Type} `{Imports Data}.

Definition getExtension (target : Target) : Extension :=
  match target with
  | react => ext_tsx
  | hono => ext_tsx
  | astro => ext_astro
  | vue => ext_tsx
  | svelte => ext_svelte
  end.

Definition getTarget (target : string) : Completion Target :=
  if String.eqb target "react" then Normal react
  else if String.eqb target "hono" then Normal hono
  else if String.eqb target "astro" then Normal astro
  else if String.eqb target "vue" then Normal vue
  else if String.eqb target "svelte" then Normal svelte
  else Throw (ErrorObject "Invalid target option").

(** The [switch (target)] of createFile: which renderer is called and
    with which arguments. *)
Definition switchTarget (target : Target) (name : string) (d : Data) : RenderCall Data :=
  match target with
  | react => mkRenderCall reactRenderer name d None
  | hono => mkRenderCall reactRenderer name d (Some true)
  | astro => mkRenderCall astroRenderer name d None
  | vue => mkRenderCall vueRenderer name d None
  | svelte => mkRenderCall svelteRenderer name d None
  end.

(** The imported renderer run on the arguments of a call. *)
Definition rendered (c : RenderCall Data) : Completion string :=
  match renderer c with
  | reactRenderer => reactRender (componentName c) (schema c) (flavor c)
  | astroRenderer => astroRender (componentName c) (schema c)
  | vueRenderer => vueRender (componentName c) (schema c)
  | svelteRenderer => svelteRender (componentName c) (schema c)
  end.

(** Calling a renderer: the call is put on the trace, then it runs. *)
Definition invoke (c : RenderCall Data) : IO Data (Completion string) :=
  emit (render_call c);;
  mret (rendered c).

(** [Data] values are objects, so [if (data[0])] asks whether the array
    has a first element.  The [try] block runs up to
    [return fsPromises.writeFile(...)]: a throw of the renderer lands in
    [catch], while the promise of the write is returned without [await]
    and settles the promise of [createFile] itself. *)
Definition createFile (data : list Data) (mist : string) (target : Target)
    (ext : Extension) : IO Data (Settled unit) :=
  fun w =>
    let name := NodePath.basename mist ".mist.css" in
    match data !! 0%nat with
    | Some d =>
        match invoke (switchTarget target name d) w with
        | (Normal result, w1) =>
            fsPromises.writeFile
              (JSString.replaceAtEnd (JSString.anchoredBody "\.css$") (extString ext) mist)
              result true w1
        | (Throw e, w1) => (Fulfilled tt, (reportError mist e w1).2)
        end
    | None => (Fulfilled tt, w)
    end.

(** The callback of [targets.map] has a block body without [return]:
    it starts [createFile], drops its promise and yields [undefined]. *)
Definition createFiles (data : list Data) (mist : string)
    (targets : list (Target * Extension)) : IO Data (Settled unit) :=
  promises ← mapM (fun '(target, ext) =>
                     p ← createFile data mist target ext;
                     discard p;;
                     mret tt) targets;
  mret (then_ (Promise_all (Fulfilled <$> promises)) (fun _ => tt)).

End core.
End core.

(** ** The command line driver (src/unnamed/part_000) *)

Module cli.
Section cli.
Context {Data : Type} `{Imports Data}.

Definition usageText : string :=
"Usage: mistcss <directory> [options]
  --watch, -w    Watch for changes
  --target, -t   Render target (react, vue, astro, hono, svelte) [default: react]
".

Definition usage : IO Data unit := emit (console_log usageText).

(** A step of the script either goes on or ends the process with
    [process.exit(code)]. *)
Inductive Flow (A : Type) : Type :=
| Continue (a : A)
| Exit (code : Z).
Arguments Continue {A} a.
Arguments Exit {A} code.

(** [target.forEach(...)] of the validation. *)
Fixpoint validateTargets (target : list string) : IO Data (Flow unit) :=
  match target with
  | [] => mret (Continue tt)
  | t :: rest =>
      match core.getTarget t with
      | Normal _ => validateTargets rest
      | Throw _ =>
          emit (console_error "Invalid render option");;
          usage;;
          mret (Exit 1)
      end
  end.

Definition setExtension (targetStr : string) : IO Data (Completion (Target * Extension)) :=
  match core.getTarget targetStr with
  | Throw e => mret (Throw e)
  | Normal target =>
      let ext := core.getExtension target in
      emit (console_log
              match target with
              | react => "Rendering React components"
              | hono => "Rendering Hono components"
              | astro => "Rendering Astro components"
              | vue => "Rendering Vue components"
              | svelte => "Rendering Svelte components"
              end);;
      mret (Normal (target, ext))
  end.

(** The callback of [cssFiles.map] in the batch build. *)
Definition buildFile (targetWithExt : list (Target * Extension)) (mist : string)
    : IO Data (Settled unit) :=
  fun w =>
    match fsPromises.readFile mist w with
    | (Rejected e, w1) => (Fulfilled tt, (reportError mist e w1).2)
    | (Fulfilled text, w1) =>
        match parse text with
        | Throw e => (Fulfilled tt, (reportError mist e w1).2)
        | Normal data =>
            let '(p, w2) := core.createFiles data mist targetWithExt w1 in
            (Fulfilled tt, (discard p w2).2)
        end
    end.

(** [await Promise.all(cssFiles.map(...))] *)
Definition build (targetWithExt : list (Target * Extension)) : IO Data (Settled (list unit)) :=
  cssFiles ← (fun w => (globby "**/*.mist.css" (files w), w));
  promises ← mapM (buildFile targetWithExt) cssFiles;
  mret (Promise_all promises).

Definition unlink (file : string) (ext : Extension) : IO Data (Settled unit) :=
  let regex := JSString.anchoredBody ("." +:+ extString ext +:+ "$") in
  let mist := JSString.replaceAtEnd regex ".css" file in
  exists_ ← fs.existsSync mist;
  if negb exists_ then fsPromises.unlink mist else mret (Fulfilled tt).

(** The cleanup pass: one glob per target, one [unlink] per match. *)
Definition cleanup (targetWithExt : list (Target * Extension))
    : IO Data (Settled (list (list unit))) :=
  promises ← mapM (fun '(_, ext) =>
                     found ← (fun w => (globby ("**/*.mist." +:+ extString ext) (files w), w));
                     removed ← mapM (fun file => unlink file ext) found;
                     mret (Promise_all removed)) targetWithExt;
  mret (Promise_all promises).

(** [target.map(setExtension)]: a throw of the callback ends the map. *)
Fixpoint mapSetExtension (target : list string)
    : IO Data (Completion (list (Target * Extension))) :=
  match target with
  | [] => mret (Normal [])
  | t :: rest =>
      r ← setExtension t;
      match r with
      | Throw e => mret (Throw e)
      | Normal entry =>
          rs ← mapSetExtension rest;
          mret (match rs with
                | Throw e => Throw e
                | Normal entries => Normal (entry :: entries)
                end)
      end
  end.

(** How the script ends. *)
Inductive Ended : Type :=
| finished
| exited (code : Z)
| uncaught (e : Thrown).

(** The script from the validation of the [--target] values on, run
    without [--watch] in a directory that exists: validation, batch
    build, cleanup.  A rejected top-level [await] ends the process. *)
Definition main (target : list string) : IO Data Ended :=
  fun w =>
    match validateTargets target w with
    | (Exit code, w1) => (exited code, w1)
    | (Continue _, w1) =>
        match mapSetExtension target w1 with
        | (Throw e, w2) => (uncaught e, w2)
        | (Normal targetWithExt, w2) =>
            match build targetWithExt w2 with
            | (Rejected e, w3) => (uncaught e, w3)
            | (Fulfilled _, w3) =>
                match cleanup targetWithExt w3 with
                | (Rejected e, w4) => (uncaught e, w4)
                | (Fulfilled _, w4) => (finished, w4)
                end
            end
        end
    end.

(** The two handlers of the watcher, installed under [--watch]:
    [.on('change', ...)] and [.on('unlink', ...)]. *)
Definition onChange (targetWithExt : list (Target * Extension)) (file : string)
    : IO Data unit :=
  fun w =>
    match fs.readFileSync file w with
    | (Throw e, w1) => reportError file e w1
    | (Normal text, w1) =>
        match parse text with
        | Throw e => reportError file e w1
        | Normal data =>
            let '(p, w2) := core.createFiles data file targetWithExt w1 in
            discard p w2
        end
    end.

Definition onUnlink (targetWithExt : list (Target * Extension)) (file : string)
    : IO Data unit :=
  mapM (fun '(_, ext) =>
          p ← fsPromises.unlink
                (JSString.replaceAtEnd (JSString.anchoredBody "\.css$") (extString ext) file);
          discard p) targetWithExt;;
  mret tt.

End cli.
Arguments Continue {A} a.
Arguments Exit {A} code.
End cli.

(** ** The older driver with its own createFile (src/src/bin.ts) *)

Module bin.
Section bin.
Context {Data : Type} `{Imports Data}.

(** As in core.ts, but [writeFile] is called without the flush option. *)
Definition createFile (data : list Data) (mist : string) (target : Target)
    (ext : Extension) : IO Data (Settled unit) :=
  fun w =>
    let name := NodePath.basename mist ".mist.css" in
    match data !! 0%nat with
    | Some d =>
        match core.invoke (core.switchTarget target name d) w with
        | (Normal result, w1) =>
            fsPromises.writeFile
              (JSString.replaceAtEnd (JSString.anchoredBody "\.css$") (extString ext) mist)
              result false w1
        | (Throw e, w1) => (Fulfilled tt, (reportError mist e w1).2)
        end
    | None => (Fulfilled tt, w)
    end.

Definition createFiles (mist : string) (targets : list (Target * Extension))
    : IO Data (Settled unit) :=
  fun w =>
    match fs.readFileSync mist w with
    | (Throw e, w1) => (Fulfilled tt, (reportError mist e w1).2)
    | (Normal text, w1) =>
        match parse text with
        | Throw e => (Fulfilled tt, (reportError mist e w1).2)
        | Normal data =>
            (promises ← mapM (fun '(target, ext) =>
                                p ← createFile data mist target ext;
                                discard p;;
                                mret tt) targets;
             mret (then_ (Promise_all (Fulfilled <$> promises)) (fun _ => tt))) w1
        end
    end.

(** [usage()] prints the same text as in the newer driver. *)
Definition usage : IO Data unit := emit (console_log cli.usageText).

(** [target.forEach(...)] of the validation, by comparison with the five
    names. *)
Fixpoint validateTargets (target : list string) : IO Data (cli.Flow unit) :=
  match target with
  | [] => mret (cli.Continue tt)
  | t :: rest =>
      if negb (String.eqb t "react") && negb (String.eqb t "hono")
         && negb (String.eqb t "astro") && negb (String.eqb t "vue")
         && negb (String.eqb t "svelte")
      then
        emit (console_error "Invalid render option");;
        usage;;
        mret (cli.Exit 1)
      else validateTargets rest
  end.

(** Here the [default] branch of the switch ends the process. *)
Definition setExtension (target : string) : IO Data (cli.Flow (Target * Extension)) :=
  if String.eqb target "react" then
    emit (console_log "Rendering React components");; mret (cli.Continue (react, ext_tsx))
  else if String.eqb target "hono" then
    emit (console_log "Rendering Hono components");; mret (cli.Continue (hono, ext_tsx))
  else if String.eqb target "astro" then
    emit (console_log "Rendering Astro components");; mret (cli.Continue (astro, ext_astro))
  else if String.eqb target "vue" then
    emit (console_log "Rendering Vue components");; mret (cli.Continue (vue, ext_tsx))
  else if String.eqb target "svelte" then
    emit (console_log "Rendering Svelte components");; mret (cli.Continue (svelte, ext_svelte))
  else
    emit (console_error "Invalid target option");;
    usage;;
    mret (cli.Exit 1).

(** [target.map(setExtension)] *)
Fixpoint mapSetExtension (target : list string)
    : IO Data (cli.Flow (list (Target * Extension))) :=
  match target with
  | [] => mret (cli.Continue [])
  | t :: rest =>
      r ← setExtension t;
      match r with
      | cli.Exit code => mret (cli.Exit code)
      | cli.Continue entry =>
          rs ← mapSetExtension rest;
          mret (match rs with
                | cli.Exit code => cli.Exit code
                | cli.Continue entries => cli.Continue (entry :: entries)
                end)
      end
  end.

(** The handlers of the watcher. *)
Definition onChange (targetWithExt : list (Target * Extension)) (file : string)
    : IO Data unit :=
  p ← createFiles file targetWithExt;
  discard p.

Definition onUnlink (targetWithExt : list (Target * Extension)) (file : string)
    : IO Data unit :=
  mapM (fun '(_, ext) =>
          p ← fsPromises.unlink
                (JSString.replaceAtEnd (JSString.anchoredBody "\.css$") (extString ext) file);
          discard p) targetWithExt;;
  mret tt.

(** [await Promise.all(cssFiles.map((mist) => createFiles(mist, targetWithExt)))] *)
Definition build (targetWithExt : list (Target * Extension)) : IO Data (Settled (list unit)) :=
  cssFiles ← (fun w => (globby "**/*.mist.css" (files w), w));
  promises ← mapM (fun mist => createFiles mist targetWithExt) cssFiles;
  mret (Promise_all promises).

Definition unlink (file : string) (ext : Extension) : IO Data (Settled unit) :=
  let regex := JSString.anchoredBody ("." +:+ extString ext +:+ "$") in
  let mist := JSString.replaceAtEnd regex ".css" file in
  exists_ ← fs.existsSync mist;
  if negb exists_ then fsPromises.unlink mist else mret (Fulfilled tt).

Definition cleanup (targetWithExt : list (Target * Extension))
    : IO Data (Settled (list (list unit))) :=
  promises ← mapM (fun '(_, ext) =>
                     found ← (fun w => (globby ("**/*.mist." +:+ extString ext) (files w), w));
                     removed ← mapM (fun file => unlink file ext) found;
                     mret (Promise_all removed)) targetWithExt;
  mret (Promise_all promises).

(** The older script from the validation of the [--target] values on,
    without [--watch]. *)
Definition main (target : list string) : IO Data cli.Ended :=
  fun w =>
    match validateTargets target w with
    | (cli.Exit code, w1) => (cli.exited code, w1)
    | (cli.Continue _, w1) =>
        match mapSetExtension target w1 with
        | (cli.Exit code, w2) => (cli.exited code, w2)
        | (cli.Continue targetWithExt, w2) =>
            match build targetWithExt w2 with
            | (Rejected e, w3) => (cli.uncaught e, w3)
            | (Fulfilled _, w3) =>
                match cleanup targetWithExt w3 with
                | (Rejected e, w4) => (cli.uncaught e, w4)
                | (Fulfilled _, w4) => (cli.finished, w4)
                end
            end
        end
    end.

End bin.
End bin.

(** ** Reading a trace *)

(** The events added to a trace since an earlier point of it. *)
Definition since {Data} (before after : World Data) : list (Event Data) :=
  drop (length (output before)) (output after).

Definition renderCalls {Data} (evs : list (Event Data)) : list (RenderCall Data) :=
  omap (fun e => match e with render_call c => Some c | _ => None end) evs.

Definition writtenPaths {Data} (evs : list (Event Data)) : list string :=
  omap (fun e => match e with writeFile_call p _ _ => Some p | _ => None end) evs.

Definition reported {Data} (evs : list (Event Data)) : list string :=
  omap (fun e => match e with console_error line => Some line | _ => None end) evs.

Definition unhandled {Data} (evs : list (Event Data)) : list Thrown :=
  omap (fun e => match e with unhandled_rejection e => Some e | _ => None end) evs.

(** The trace only grows: what a step adds comes after what was there. *)
Definition grows {Data} (w w' : World Data) : Prop :=
  output w' = (output w ++ since w w')%list.

(** The trace with the options of [writeFile] forgotten. *)
Definition unflush {Data} (e : Event Data) : Event Data :=
  match e with
  | writeFile_call path data _ => writeFile_call path data false
  | _ => e
  end.

(** Two worlds that differ at most in the options recorded for
    [writeFile] calls. *)
Definition sameButFlush {Data} (w1 w2 : World Data) : Prop :=
  files w1 = files w2
  /\ denied w1 = denied w2
  /\ unflush <$> output w1 = unflush <$> output w2.

(** Two computations that, from such worlds, give the same result and
    end in such worlds. *)
Definition simulates {Data A} (f g : IO Data A) : Prop :=
  forall w1 w2, sameButFlush w1 w2 ->
    (f w1).1 = (g w2).1 /\ sameButFlush (f w1).2 (g w2).2.

(** ** A concrete set of imports, to run the model

    Schemas are the words of the stylesheet; a stylesheet holding a brace
    that is never closed does not parse; the renderers tag their text; the
    glob understands the patterns [**/*tail] of the driver. *)

Module sample.

Definition wordParser (text : string) : Completion (list string) :=
  if String.eqb text "{" then Throw (ErrorObject "Unclosed block")
  else Normal (String.words text).

Definition reactText (name d : string) (hono : option bool) : Completion string :=
  if String.eqb d "!" then Throw (OtherValue "render failed")
  else Normal (match hono with
               | Some true => "hono:"
               | _ => "react:"
               end +:+ name +:+ ":" +:+ d).

Definition astroText (name d : string) : Completion string :=
  Normal ("astro:" +:+ name +:+ ":" +:+ d).
Definition vueText (name d : string) : Completion string :=
  Normal ("vue:" +:+ name +:+ ":" +:+ d).
Definition svelteText (name d : string) : Completion string :=
  Normal ("svelte:" +:+ name +:+ ":" +:+ d).

Definition endsWith (tail s : string) : bool :=
  let t := JSString.chars tail in
  let cs := JSString.chars s in
  bool_decide (drop (length cs - length t)%nat cs = t).

Definition tailGlob (pattern : string) (tree : gmap string string) : list string :=
  match JSString.chars pattern with
  | "*"%char :: "*"%char :: "/"%char :: "*"%char :: tail =>
      filter (fun p => endsWith (JSString.str tail) p = true) (map_to_list tree).*1
  | _ => []
  end.

#[global] Instance imports : Imports string := {|
  parse := wordParser;
  reactRender := reactText;
  astroRender := astroText;
  vueRender := vueText;
  svelteRender := svelteText;
  globby := tailGlob
|}.

(** A tree with one live stylesheet and one generated file whose
    stylesheet is gone. *)
Definition orphaned : World string :=
  mkWorld {[ "ui/Button.mist.css" := "button"; "ui/Old.mist.tsx" := "stale" ]} ∅ [].

(** A tree where the generated file of the one stylesheet cannot be
    written. *)
Definition refused : World string :=
  mkWorld {[ "ui/Card.mist.css" := "card" ]}
          {[ "ui/Card.mist.tsx" := "EACCES: permission denied, open 'ui/Card.mist.tsx'" ]}
          [].

End sample.

(** * Properties *)

(** ** Strings *)

Section strings.
Import JSString.

Lemma chars_app (a b : string) : chars (a +:+ b) = (chars a ++ chars b)%list.
Proof. induction a as [| c a IH]; simpl; [done | by rewrite IH]. Qed.

Lemma str_app (a b : list ascii) : str (a ++ b) = str a +:+ str b.
Proof. induction a as [| c a IH]; simpl; [done | by rewrite IH]. Qed.

Lemma str_chars (s : string) : str (chars s) = s.
Proof. apply string_of_list_ascii_of_string. Qed.

Lemma chars_str (l : list ascii) : chars (str l) = l.
Proof. apply list_ascii_of_string_of_list_ascii. Qed.

Lemma css_pattern :
  anchoredBody "\.css$" = [Lit "."%char; Lit "c"%char; Lit "s"%char; Lit "s"%char].
Proof. reflexivity. Qed.

(** [mist.replace(/\.css$/, r)] on a path that ends in [.css]. *)
Lemma replace_css_suffix (base r : string) :
  replaceAtEnd (anchoredBody "\.css$") r (base +:+ ".css") = base +:+ r.
Proof.
  rewrite css_pattern. unfold replaceAtEnd.
  rewrite chars_app, length_app. cbn [length chars list_ascii_of_string].
  rewrite Nat.add_sub, drop_app_length, take_app_length.
  replace (4 <=? length (chars base) + 4)%nat with true
    by (symmetry; apply Nat.leb_le; lia).
  cbn [allMatch atomMatches andb Ascii.eqb Bool.eqb].
  by rewrite str_app, !str_chars.
Qed.

End strings.

(** ** Unfolding the monad *)

Ltac io_unfold :=
  unfold mbind, IO_bind, mret, IO_ret, emit, discard in *.

Lemma since_record {Data} (w : World Data) (evs : list (Event Data)) (w' : World Data) :
  output w' = (output w ++ evs)%list -> since w w' = evs.
Proof. unfold since. intros ->. apply drop_app_length. Qed.

Lemma mapM_cons {Data A B} (f : A -> IO Data B) (a : A) (l : list A) (w : World Data) :
  mapM f (a :: l) w =
    let '(b, w1) := f a w in
    let '(bs, w2) := mapM f l w1 in
    (b :: bs, w2).
Proof.
  simpl. io_unfold. destruct (f a w) as [b w1]. by destruct (mapM f l w1).
Qed.

(** [Promise.all] of values that are not promises fulfils with them. *)
Lemma Promise_all_values {A} (l : list A) :
  Promise_all (Fulfilled <$> l) = Fulfilled l.
Proof.
  induction l as [| a l IH]; [done |].
  rewrite fmap_cons. cbn [Promise_all]. by rewrite IH.
Qed.

Section pipeline.
Context {Data : Type} `{Imports Data}.

(** [createFile] on a non-empty array, step by step. *)
Lemma createFile_first (d : Data) (rest : list Data) (mist : string)
    (target : Target) (ext : Extension) (w : World Data) :
  core.createFile (d :: rest) mist target ext w =
    let c := core.switchTarget target (NodePath.basename mist ".mist.css") d in
    let w1 := record (render_call c) w in
    match core.rendered c with
    | Normal result =>
        fsPromises.writeFile
          (JSString.replaceAtEnd (JSString.anchoredBody "\.css$") (extString ext) mist)
          result true w1
    | Throw e => (Fulfilled tt, (reportError mist e w1).2)
    end.
Proof.
  unfold core.createFile, core.invoke. io_unfold. simpl.
  by destruct (core.rendered _).
Qed.

(** What [createFile] adds to the trace: the call of the renderer, then
    either the call of [writeFile] (and nothing about its failure) or
    the report of the [catch] block. *)
Lemma createFile_trace (d : Data) (rest : list Data) (mist : string)
    (target : Target) (ext : Extension) (w : World Data) :
  let c := core.switchTarget target (NodePath.basename mist ".mist.css") d in
  since w (core.createFile (d :: rest) mist target ext w).2 =
    render_call c ::
    match core.rendered c with
    | Normal result =>
        [writeFile_call
           (JSString.replaceAtEnd (JSString.anchoredBody "\.css$") (extString ext) mist)
           result true]
    | Throw (ErrorObject message) =>
        [console_error ("Error " +:+ mist +:+ ": " +:+ message)]
    | Throw (OtherValue v) =>
        [console_error ("Error " +:+ mist); console_error_value (OtherValue v)]
    end.
Proof.
  intros c. rewrite createFile_first. fold c. cbv zeta.
  apply since_record.
  destruct (core.rendered c) as [result | [message | v]].
  - unfold fsPromises.writeFile. simpl.
    destruct (denied w !! _); simpl; by rewrite <- app_assoc.
  - simpl. by rewrite <- app_assoc.
  - simpl. by rewrite <- !app_assoc.
Qed.

End pipeline.

Section createFile.
Context {Data : Type} `{Imports Data}.

(** The one renderer call of [createFile] on a non-empty array. *)
Lemma createFile_renderCalls (d : Data) (rest : list Data) (mist : string)
    (target : Target) (ext : Extension) (w : World Data) :
  renderCalls (since w (core.createFile (d :: rest) mist target ext w).2) =
    [core.switchTarget target (NodePath.basename mist ".mist.css") d].
Proof.
  rewrite createFile_trace.
  by destruct (core.rendered _) as [result | [message | v]].
Qed.

Lemma bin_createFile_first (d : Data) (rest : list Data) (mist : string)
    (target : Target) (ext : Extension) (w : World Data) :
  bin.createFile (d :: rest) mist target ext w =
    let c := core.switchTarget target (NodePath.basename mist ".mist.css") d in
    let w1 := record (render_call c) w in
    match core.rendered c with
    | Normal result =>
        fsPromises.writeFile
          (JSString.replaceAtEnd (JSString.anchoredBody "\.css$") (extString ext) mist)
          result false w1
    | Throw e => (Fulfilled tt, (reportError mist e w1).2)
    end.
Proof.
  unfold bin.createFile, core.invoke. io_unfold. simpl.
  by destruct (core.rendered _).
Qed.

Lemma writeFile_trace (path data : string) (flush : bool) (w : World Data) :
  output (fsPromises.writeFile path data flush w).2 =
    (output w ++ [writeFile_call path data flush])%list.
Proof. unfold fsPromises.writeFile. simpl. by destruct (denied w !! path). Qed.

(** C2. For every data array with first element [d] and every target,
    createFile does the same whatever follows [d] in the array (same
    settlement, same files, same trace), and the only schema it hands to
    a renderer is [d]. *)
Theorem createFile_only_first_schema (d : Data) (rest rest' : list Data)
    (mist : string) (target : Target) (ext : Extension) (w : World Data) :
  core.createFile (d :: rest) mist target ext w =
    core.createFile (d :: rest') mist target ext w
  /\ schema <$> renderCalls (since w (core.createFile (d :: rest) mist target ext w).2)
     = [d].
Proof.
  split.
  - by rewrite !createFile_first.
  - rewrite createFile_renderCalls. by destruct target.
Qed.

Lemma createFiles_empty (mist : string) (targets : list (Target * Extension))
    (w : World Data) :
  core.createFiles [] mist targets w = (Fulfilled tt, w).
Proof.
  unfold core.createFiles.
  match goal with |- context [mapM ?f targets] => set (callback := f) end.
  assert (Hmap : mapM callback targets w = (replicate (length targets) tt, w)).
  { induction targets as [| [target ext] targets IH]; [done |].
    rewrite mapM_cons.
    change (callback (target, ext) w) with (tt, w). cbv iota beta.
    by rewrite IH. }
  unfold mbind, IO_bind. rewrite Hmap. unfold mret, IO_ret. f_equal.
  by rewrite Promise_all_values.
Qed.

(** C4. On an empty data array createFile fulfils and leaves the world
    as it was: no file written, nothing printed, no renderer called; so
    does createFiles for every list of targets. *)
Theorem createFile_empty_data (mist : string) (target : Target) (ext : Extension)
    (targets : list (Target * Extension)) (w : World Data) :
  core.createFile [] mist target ext w = (Fulfilled tt, w)
  /\ bin.createFile [] mist target ext w = (Fulfilled tt, w)
  /\ core.createFiles [] mist targets w = (Fulfilled tt, w).
Proof. split; [done | split; [done | apply createFiles_empty]]. Qed.

(** C5. For an input path [base.css], every target and the extension
    [ext] passed with it (the driver passes [getExtension target]), the
    one file createFile writes is [base] followed by [ext]; the same in
    core.ts and in bin.ts. *)
Theorem createFile_output_path (base : string) (d : Data) (rest : list Data)
    (target : Target) (ext : Extension) (result : string) (w : World Data) :
  core.rendered
    (core.switchTarget target (NodePath.basename (base +:+ ".css") ".mist.css") d)
    = Normal result ->
  writtenPaths (since w (core.createFile (d :: rest) (base +:+ ".css") target ext w).2)
    = [base +:+ extString ext]
  /\ writtenPaths (since w (bin.createFile (d :: rest) (base +:+ ".css") target ext w).2)
    = [base +:+ extString ext]
  /\ writtenPaths
       (since w (core.createFile (d :: rest) (base +:+ ".css") target
                   (core.getExtension target) w).2)
    = [base +:+ extString (core.getExtension target)].
Proof.
  intros Hres.
  assert (Hcore : forall e,
    writtenPaths (since w (core.createFile (d :: rest) (base +:+ ".css") target e w).2)
      = [base +:+ extString e]).
  { intros e. rewrite createFile_trace, Hres. simpl.
    by rewrite replace_css_suffix. }
  split; [apply Hcore | split; [| apply Hcore]].
  rewrite bin_createFile_first. cbv zeta. rewrite Hres.
  erewrite since_record.
  2:{ rewrite writeFile_trace. simpl. rewrite <- app_assoc. reflexivity. }
  simpl. by rewrite replace_css_suffix.
Qed.

(** C8. For target hono createFile calls the react renderer with the
    flag [true], for target react it calls the same renderer without a
    third argument; name and schema are the same in both calls. *)
Theorem hono_is_react_with_flag (d : Data) (rest : list Data) (mist : string)
    (ext : Extension) (w : World Data) :
  renderCalls (since w (core.createFile (d :: rest) mist hono ext w).2)
    = [mkRenderCall reactRenderer (NodePath.basename mist ".mist.css") d (Some true)]
  /\ renderCalls (since w (core.createFile (d :: rest) mist react ext w).2)
    = [mkRenderCall reactRenderer (NodePath.basename mist ".mist.css") d None].
Proof. by rewrite !createFile_renderCalls. Qed.

End createFile.

(** ** Targets and extensions *)

(** C6. getExtension gives every one of the five targets an extension:
    react, hono and vue the same one, astro a second one, svelte a third
    one; the three differ as values and as strings. *)
Theorem getExtension_mapping :
  (forall target : Target, exists ext : Extension, core.getExtension target = ext)
  /\ core.getExtension react = core.getExtension hono
  /\ core.getExtension hono = core.getExtension vue
  /\ core.getExtension astro <> core.getExtension react
  /\ core.getExtension svelte <> core.getExtension react
  /\ core.getExtension svelte <> core.getExtension astro
  /\ extString (core.getExtension astro) <> extString (core.getExtension react)
  /\ extString (core.getExtension svelte) <> extString (core.getExtension react)
  /\ extString (core.getExtension svelte) <> extString (core.getExtension astro).
Proof. repeat split; try done. intros target. by eexists. Qed.

Ltac case_name s tac :=
  repeat match goal with
         | |- context [String.eqb s ?x] =>
             destruct (String.eqb_spec s x) as [-> | ?]; [tac |]
         end.

Lemma getTarget_Normal (s : string) (t : Target) :
  core.getTarget s = Normal t ->
  s ∈ ["react"; "hono"; "astro"; "vue"; "svelte"].
Proof.
  unfold core.getTarget.
  case_name s ltac:(intros _; repeat constructor).
  intros [=].
Qed.

Lemma getTarget_other (s : string) :
  s ∉ ["react"; "hono"; "astro"; "vue"; "svelte"] ->
  core.getTarget s = Throw (ErrorObject "Invalid target option").
Proof.
  intros Hnot. unfold core.getTarget.
  case_name s ltac:(exfalso; apply Hnot; repeat constructor).
  done.
Qed.

Section validation.
Context {Data : Type} `{Imports Data}.

Lemma validateTargets_invalid (target : list string) (w : World Data) :
  Exists (fun s => s ∉ ["react"; "hono"; "astro"; "vue"; "svelte"]) target ->
  cli.validateTargets target w =
    (cli.Exit 1,
     record (console_log cli.usageText) (record (console_error "Invalid render option") w)).
Proof.
  induction target as [| s target IH]; intros Hex.
  - by apply Exists_nil in Hex.
  - simpl. destruct (core.getTarget s) as [t | e] eqn:Ht; [| done].
    apply Exists_cons in Hex as [Hs | Hrest]; [| by apply IH].
    by rewrite (getTarget_other s Hs) in Ht.
Qed.

Lemma validateTargets_valid (target : list string) (w : World Data) :
  Forall (fun s => s ∈ ["react"; "hono"; "astro"; "vue"; "svelte"]) target ->
  cli.validateTargets target w = (cli.Continue tt, w).
Proof.
  induction 1 as [| s target Hs _ IH]; [done |].
  simpl. destruct (core.getTarget s) as [t | e] eqn:Ht; [done |].
  exfalso. revert Ht. unfold core.getTarget.
  case_name s ltac:(discriminate).
  rewrite !elem_of_cons, elem_of_nil in Hs. by destruct_or!.
Qed.

(** C7. getTarget returns a target for exactly the five names, each
    name giving its own target, and throws [Error('Invalid target
    option')] for every other string; when a [--target] value is such a
    string the script prints the error line and the usage text and ends
    with [process.exit(1)], before anything is built. *)
Theorem getTarget_five_names :
  (forall s : string,
      (exists t, core.getTarget s = Normal t)
      <-> s ∈ ["react"; "hono"; "astro"; "vue"; "svelte"])
  /\ core.getTarget "react" = Normal react
  /\ core.getTarget "hono" = Normal hono
  /\ core.getTarget "astro" = Normal astro
  /\ core.getTarget "vue" = Normal vue
  /\ core.getTarget "svelte" = Normal svelte
  /\ (forall s : string,
        s ∉ ["react"; "hono"; "astro"; "vue"; "svelte"] ->
        core.getTarget s = Throw (ErrorObject "Invalid target option"))
  /\ (forall (target : list string) (w : World Data),
        Exists (fun s => s ∉ ["react"; "hono"; "astro"; "vue"; "svelte"]) target ->
        cli.validateTargets target w =
          (cli.Exit 1,
           record (console_log cli.usageText)
             (record (console_error "Invalid render option") w))
        /\ cli.main target w =
          (cli.exited 1,
           record (console_log cli.usageText)
             (record (console_error "Invalid render option") w))).
Proof.
  split; [| repeat split; try done].
  - intros s. split.
    + intros [t Ht]. by eapply getTarget_Normal.
    + intros Hs. destruct (core.getTarget s) as [t | e] eqn:Ht; [by eexists |].
      exfalso. revert Ht. unfold core.getTarget.
      case_name s ltac:(discriminate).
      rewrite !elem_of_cons, elem_of_nil in Hs. by destruct_or!.
  - apply getTarget_other.
  - by apply validateTargets_invalid.
  - unfold cli.main. by rewrite validateTargets_invalid.
Qed.

End validation.

(** ** createFiles *)

Section createFiles.
Context {Data : Type} `{Imports Data}.

(** C10. createFiles fulfils for every data array, path, list of
    targets and world, also one in which a renderer throws or a write is
    refused: the array given to Promise.all holds no promise. *)
Theorem createFiles_never_rejects (data : list Data) (mist : string)
    (targets : list (Target * Extension)) (w : World Data) :
  (core.createFiles data mist targets w).1 = Fulfilled tt.
Proof.
  unfold core.createFiles, mbind, IO_bind.
  destruct (mapM _ targets w) as [promises w1].
  unfold mret, IO_ret. simpl. by rewrite Promise_all_values.
Qed.

End createFiles.

(** ** The batch build *)

Lemma mapM_length {Data A B} (f : A -> IO Data B) (l : list A) (w : World Data) :
  length (mapM f l w).1 = length l.
Proof.
  revert w. induction l as [| a l IH]; intros w; [done |].
  rewrite mapM_cons. destruct (f a w) as [b w1]. specialize (IH w1).
  destruct (mapM f l w1) as [bs w2]. simpl in *. by rewrite IH.
Qed.

Lemma mapM_files {Data A B} (f : A -> IO Data B) (l : list A) (w : World Data) :
  (forall a w', files (f a w').2 = files w') ->
  files (mapM f l w).2 = files w.
Proof.
  intros Hf. revert w. induction l as [| a l IH]; intros w; [done |].
  rewrite mapM_cons. specialize (Hf a w). destruct (f a w) as [b w1].
  specialize (IH w1). destruct (mapM f l w1) as [bs w2]. simpl in *. congruence.
Qed.

Section batch.
Context {Data : Type} `{Imports Data}.

(** A refused write: the promise of [createFile] rejects, and the
    [catch] block has printed nothing. *)
Lemma createFile_write_refused (d : Data) (rest : list Data) (mist : string)
    (target : Target) (ext : Extension) (result message : string) (w : World Data) :
  let c := core.switchTarget target (NodePath.basename mist ".mist.css") d in
  let path :=
    JSString.replaceAtEnd (JSString.anchoredBody "\.css$") (extString ext) mist in
  core.rendered c = Normal result ->
  denied w !! path = Some message ->
  core.createFile (d :: rest) mist target ext w =
    (Rejected (ErrorObject message),
     record (writeFile_call path result true) (record (render_call c) w)).
Proof.
  intros c path Hres Hden. rewrite createFile_first. fold c. cbv zeta.
  rewrite Hres. unfold fsPromises.writeFile. fold path. simpl. by rewrite Hden.
Qed.

(** A renderer that throws is caught and reported with the path. *)
Lemma createFile_render_error (d : Data) (rest : list Data) (mist : string)
    (target : Target) (ext : Extension) (message : string) (w : World Data) :
  let c := core.switchTarget target (NodePath.basename mist ".mist.css") d in
  core.rendered c = Throw (ErrorObject message) ->
  core.createFile (d :: rest) mist target ext w =
    (Fulfilled tt,
     record (console_error ("Error " +:+ mist +:+ ": " +:+ message))
       (record (render_call c) w)).
Proof. intros c Hres. rewrite createFile_first. fold c. cbv zeta. by rewrite Hres. Qed.

(** The step of the batch for one file never rejects. *)
Lemma buildFile_fulfils (targetWithExt : list (Target * Extension)) (mist : string)
    (w : World Data) :
  (cli.buildFile targetWithExt mist w).1 = Fulfilled tt.
Proof.
  unfold cli.buildFile, fsPromises.readFile.
  destruct (files w !! mist) as [text |]; [| done].
  destruct (parse text) as [data | e]; [| done].
  by destruct (core.createFiles _ _ _ _).
Qed.

(** A file that cannot be read is reported with its path. *)
Lemma buildFile_read_error (targetWithExt : list (Target * Extension)) (mist : string)
    (w : World Data) :
  files w !! mist = None ->
  cli.buildFile targetWithExt mist w =
    (Fulfilled tt,
     record (console_error
               ("Error " +:+ mist +:+ ": "
                +:+ "ENOENT: no such file or directory, open '" +:+ mist +:+ "'")) w).
Proof. intros Hno. unfold cli.buildFile, fsPromises.readFile. by rewrite Hno. Qed.

(** A file that does not parse is reported with its path. *)
Lemma buildFile_parse_error (targetWithExt : list (Target * Extension)) (mist : string)
    (text message : string) (w : World Data) :
  files w !! mist = Some text ->
  parse text = Throw (ErrorObject message) ->
  cli.buildFile targetWithExt mist w =
    (Fulfilled tt, record (console_error ("Error " +:+ mist +:+ ": " +:+ message)) w).
Proof.
  intros Hfile Hparse. unfold cli.buildFile, fsPromises.readFile.
  by rewrite Hfile, Hparse.
Qed.

(** The batch runs the step on every file the glob found and fulfils. *)
Lemma build_fulfils (targetWithExt : list (Target * Extension)) (w : World Data) :
  (cli.build targetWithExt w).1 =
    Fulfilled (replicate (length (globby "**/*.mist.css" (files w))) tt).
Proof.
  unfold cli.build, mbind, IO_bind, mret, IO_ret.
  generalize (globby "**/*.mist.css" (files w)) as cssFiles. intros cssFiles.
  generalize w as w0.
  induction cssFiles as [| mist cssFiles IH]; intros w0; [done |].
  rewrite mapM_cons.
  pose proof (buildFile_fulfils targetWithExt mist w0) as Hstep.
  destruct (cli.buildFile targetWithExt mist w0) as [p w1]. simpl in Hstep. subst p.
  specialize (IH w1). destruct (mapM _ cssFiles w1) as [ps w2].
  simpl in *. by rewrite IH.
Qed.

End batch.

(** ** The cleanup pass *)

Section cleanup.
Context {Data : Type} `{Imports Data}.

(** [unlink] calls [fsPromises.unlink] on the very path it has just
    found missing, so no file goes away. *)
Lemma unlink_files (file : string) (ext : Extension) (w : World Data) :
  files (cli.unlink file ext w).2 = files w.
Proof.
  unfold cli.unlink, fs.existsSync, mbind, IO_bind.
  case_bool_decide as Hex; simpl; [done |].
  unfold fsPromises.unlink. simpl.
  destruct (files w !! _) eqn:Hlook; [| done].
  exfalso. apply Hex. by eexists.
Qed.

Lemma cleanup_removes_nothing (targetWithExt : list (Target * Extension))
    (w : World Data) :
  files (cli.cleanup targetWithExt w).2 = files w.
Proof.
  unfold cli.cleanup, mbind, IO_bind.
  match goal with |- context [mapM ?f targetWithExt w] => set (perTarget := f) end.
  assert (Hall : files (mapM perTarget targetWithExt w).2 = files w).
  { apply mapM_files. intros [target ext] w'. unfold perTarget.
    pose proof (mapM_files (fun file => cli.unlink file ext)
                  (globby ("**/*.mist." +:+ extString ext) (files w')) w'
                  (fun a w'' => unlink_files a ext w'')) as Hin.
    destruct (mapM _ _ w') as [removed w'']. exact Hin. }
  by destruct (mapM perTarget targetWithExt w).
Qed.

End cleanup.

(** ** The two passes on the sample trees *)

(** C1, on the tree [sample.orphaned] with target react: the generated
    file [ui/Old.mist.tsx] has no stylesheet [ui/Old.mist.css]; the pattern
    of the pass is [**/*.mist..tsx] and finds nothing, the pass deletes
    nothing and the file is still there when the script has finished.
    Handed the file directly, [unlink] rebuilds the path [ui/Old.mis.css]
    and asks to delete that path, not the generated file. *)
Theorem cleanup_leaves_orphan :
  files sample.orphaned !! "ui/Old.mist.css" = None
  /\ files sample.orphaned !! "ui/Old.mist.tsx" = Some "stale"
  /\ "**/*.mist." +:+ extString ext_tsx = "**/*.mist..tsx"
  /\ cli.cleanup [(react, ext_tsx)] sample.orphaned = (Fulfilled [[]], sample.orphaned)
  /\ (cli.main ["react"] sample.orphaned).1 = cli.finished
  /\ files (cli.main ["react"] sample.orphaned).2 !! "ui/Old.mist.tsx" = Some "stale"
  /\ cli.unlink "ui/Old.mist.tsx" ext_tsx sample.orphaned =
       (Rejected (ErrorObject "ENOENT: no such file or directory, unlink 'ui/Old.mis.css'"),
        record (unlink_call "ui/Old.mis.css") sample.orphaned).
Proof. repeat split; vm_compute; reflexivity. Qed.

(** C3, on the tree [sample.refused] with target react: the write of
    [ui/Card.mist.tsx] is refused, the promise of createFile rejects, the
    step of the batch fulfils all the same, and the trace holds the
    unhandled rejection and no [Error ui/Card.mist.css] line. *)
Theorem write_error_not_reported :
  (core.createFile ["card"] "ui/Card.mist.css" react ext_tsx sample.refused).1 =
    Rejected (ErrorObject "EACCES: permission denied, open 'ui/Card.mist.tsx'")
  /\ (cli.buildFile [(react, ext_tsx)] "ui/Card.mist.css" sample.refused).1 = Fulfilled tt
  /\ output (cli.buildFile [(react, ext_tsx)] "ui/Card.mist.css" sample.refused).2 =
       [render_call (mkRenderCall reactRenderer "Card" "card" None);
        writeFile_call "ui/Card.mist.tsx" "react:Card:card" true;
        unhandled_rejection
          (ErrorObject "EACCES: permission denied, open 'ui/Card.mist.tsx'")]
  /\ reported (output (cli.main ["react"] sample.refused).2) = []
  /\ unhandled (output (cli.main ["react"] sample.refused).2) =
       [ErrorObject "EACCES: permission denied, open 'ui/Card.mist.tsx'"].
Proof. repeat split; vm_compute; reflexivity. Qed.

(** ** The component name *)

Section basename.
Import JSString NodePath.

Lemma isSlash_false (c : ascii) : c <> "/"%char -> isSlash c = false.
Proof. intros Hc. unfold isSlash. by apply Ascii.eqb_neq. Qed.

(** Once the suffix is settled, a character of the name changes
    nothing. *)
Lemma visit_idle (suffix : list ascii) (i : Z) (c : ascii) (st : Scan) :
  extIdx st = -1 -> firstNonSlashEnd st <> -1 -> visit suffix i c st = st.
Proof.
  intros Hext Hfirst. unfold visit.
  replace (firstNonSlashEnd st =? -1) with false by (symmetry; by apply Z.eqb_neq).
  by rewrite Hext.
Qed.

Lemma scanSuffix_name (suffix name rest : list ascii) (st : Scan) :
  "/"%char ∉ name -> extIdx st = -1 -> firstNonSlashEnd st <> -1 ->
  scanSuffix suffix (rev name ++ rest) st = scanSuffix suffix rest st.
Proof.
  intros Hname Hext Hfirst.
  induction name as [| c name IH] using rev_ind; [done |].
  rewrite rev_unit. cbn [app scanSuffix].
  rewrite isSlash_false by (intros ->; apply Hname, elem_of_app; right; constructor).
  rewrite visit_idle by done.
  apply IH. intros Hin. apply Hname, elem_of_app. by left.
Qed.

(** Matching the rest of the suffix from its last character down. *)
Lemma scanSuffix_match (s1 s2 rest : list ascii) (st : Scan) :
  s1 <> [] -> "/"%char ∉ s1 ->
  extIdx st = Z.of_nat (length s1) - 1 -> firstNonSlashEnd st <> -1 ->
  scanSuffix (s1 ++ s2) (rev s1 ++ rest) st =
    scanSuffix (s1 ++ s2) rest
      (mkScan (start st) (Z.of_nat (length rest)) (matchedSlash st) (-1)
              (firstNonSlashEnd st)).
Proof.
  revert s2 st.
  induction s1 as [| c s1 IH] using rev_ind; intros s2 st Hne Hslash Hext Hfirst;
    [done |].
  rewrite rev_unit. cbn [app scanSuffix].
  rewrite isSlash_false by (intros ->; apply Hslash, elem_of_app; right; constructor).
  rewrite length_app in Hext. cbn [length] in Hext.
  unfold visit.
  replace (firstNonSlashEnd st =? -1) with false by (symmetry; by apply Z.eqb_neq).
  replace (0 <=? extIdx st) with true by (symmetry; apply Z.leb_le; lia).
  rewrite bool_decide_eq_true_2.
  2:{ rewrite Hext. replace (Z.to_nat _) with (length s1 + 0)%nat by lia.
      by rewrite <- app_assoc, lookup_app_r, Nat.add_comm, Nat.add_sub by lia. }
  destruct s1 as [| c' s1'] using rev_ind.
  - cbn [length] in Hext. rewrite Hext. reflexivity.
  - clear IHs1'.
    replace (extIdx st - 1 =? -1) with false
      by (symmetry; apply Z.eqb_neq; rewrite Hext, length_app; cbn [length]; lia).
    rewrite <- app_assoc.
    rewrite IH; [reflexivity | by destruct s1' | | simpl; lia | done].
    intros Hin. apply Hslash, elem_of_app. by left.
Qed.

Lemma scanSuffix_dir (suffix : list ascii) (dir : string) (st : Scan) :
  isDirPrefix dir -> matchedSlash st = false ->
  start st = 0 ->
  scanSuffix suffix (rev (chars dir)) st =
    mkScan (Z.of_nat (length (chars dir))) (end_ st) (matchedSlash st) (extIdx st)
           (firstNonSlashEnd st).
Proof.
  intros [-> | [d ->]] Hm Hstart.
  - simpl. destruct st; simpl in *; by subst.
  - rewrite chars_app, rev_app_distr. simpl. rewrite Hm. simpl.
    rewrite length_app, length_rev. simpl. f_equal. lia.
Qed.

Lemma slice_middle (a b c : list ascii) :
  slice (str (a ++ b ++ c)) (Z.of_nat (length a)) (Z.of_nat (length a + length b))
  = str b.
Proof.
  unfold slice, sliceIndex. rewrite chars_str, !length_app.
  replace (Z.of_nat (length a) <? 0) with false by (symmetry; apply Z.ltb_ge; lia).
  replace (Z.of_nat (length a + length b) <? 0) with false
    by (symmetry; apply Z.ltb_ge; lia).
  rewrite !Z.min_l by lia.
  rewrite Nat2Z.id, drop_app_length.
  replace (Z.to_nat _) with (length b) by lia.
  by rewrite take_app_length.
Qed.

Lemma mist_longer (dir stem : string) :
  stem <> "" -> ".mist.css" <> dir +:+ stem +:+ ".mist.css".
Proof.
  intros Hstem Heq. apply (f_equal chars) in Heq.
  rewrite !chars_app in Heq. apply (f_equal length) in Heq.
  rewrite !length_app in Heq.
  destruct stem; [done |]. simpl in Heq. lia.
Qed.

(** The scan of [dir/stem.mist.css]: [start] after the directory, [end]
    before the suffix. *)
Lemma scanSuffix_mist (dir stem : string) :
  isDirPrefix dir -> "/"%char ∉ chars stem ->
  scanSuffix (chars ".mist.css") (rev (chars dir ++ chars stem ++ chars ".mist.css"))
    (mkScan 0 (-1) true 8 (-1))
  = mkScan (Z.of_nat (length (chars dir)))
           (Z.of_nat (length (chars dir) + length (chars stem)))
           false (-1)
           (Z.of_nat (length (chars dir) + length (chars stem)) + 9).
Proof.
  intros Hdir Hslash.
  rewrite !rev_app_distr.
  change (rev (chars ".mist.css")) with ("s"%char :: rev (chars ".mist.cs")).
  change (chars ".mist.css") with (chars ".mist.cs" ++ ["s"%char])%list.
  rewrite <- !app_assoc.
  rewrite <- app_comm_cons.
  cbn [scanSuffix].
  change (isSlash "s") with false. 
  cbv iota.
  set (i := Z.of_nat (length _)).
  assert (Hfirst : visit (chars ".mist.cs" ++ ["s"%char]) i "s" (mkScan 0 (-1) true 8 (-1))
                  = mkScan 0 (-1) false 7 (i + 1)) by reflexivity.
  rewrite Hfirst. clear Hfirst.
  rewrite scanSuffix_match.
  2: done.
  2:{ (rewrite list_elem_of_In; cbn; intros Hin; decompose [or] Hin; discriminate || done). }
  2: reflexivity.
  2:{ cbn [firstNonSlashEnd]. subst i. lia. }
  cbn [firstNonSlashEnd extIdx start end_ matchedSlash].
  rewrite scanSuffix_name; [| done | reflexivity |].
  2:{ cbn [firstNonSlashEnd]. subst i. lia. }
  rewrite scanSuffix_dir; [| done | reflexivity | reflexivity].
  cbn [firstNonSlashEnd extIdx start end_ matchedSlash]. subst i.
  rewrite !length_app, !length_rev. cbn [length chars list_ascii_of_string].
  f_equal; lia.
Qed.

(** For a path [dir/stem.mist.css] the name is [stem]. *)
Lemma basename_mist (dir stem : string) :
  isDirPrefix dir -> stem <> "" -> "/"%char ∉ chars stem ->
  basename (dir +:+ stem +:+ ".mist.css") ".mist.css" = stem.
Proof.
  intros Hdir Hstem Hslash.
  assert (Hlen : (0 < length (chars stem))%nat).
  { destruct stem; [done | simpl; lia]. }
  unfold basename.
  rewrite !chars_app, !length_app.
  change (length (chars ".mist.css")) with 9%nat.
  replace ((0 <? Z.of_nat 9) && _) with true
    by (symmetry; apply andb_true_iff; split; [reflexivity | apply Z.leb_le; lia]).
  destruct (String.eqb_spec ".mist.css" (dir +:+ stem +:+ ".mist.css")) as [Heq | _];
    [by apply mist_longer in Heq |].
  change (Z.of_nat 9 - 1) with 8.
  rewrite scanSuffix_mist by done.
  cbn [firstNonSlashEnd extIdx start end_ matchedSlash].
  replace (Z.of_nat (length (chars dir)) =? _) with false
    by (symmetry; apply Z.eqb_neq; lia).
  replace (Z.of_nat (length (chars dir) + length (chars stem)) =? -1) with false
    by (symmetry; apply Z.eqb_neq; lia).
  rewrite <- (str_chars (dir +:+ _)), !chars_app.
  rewrite slice_middle. apply str_chars.
Qed.
End basename.

Section componentName.
Context {Data : Type} `{Imports Data}.

(** C9. The name createFile hands to the renderer is
    [path.basename(mist, '.mist.css')], for every path and target; for a
    path [dir/stem.mist.css] (or [stem.mist.css]) whose [stem] is not
    empty and holds no slash, that name is [stem]. *)
Theorem component_name_is_basename (d : Data) (rest : list Data) (mist : string)
    (target : Target) (ext : Extension) (w : World Data) :
  componentName <$>
    renderCalls (since w (core.createFile (d :: rest) mist target ext w).2)
    = [NodePath.basename mist ".mist.css"]
  /\ (forall dir stem : string,
        NodePath.isDirPrefix dir -> stem <> "" -> "/"%char ∉ JSString.chars stem ->
        componentName <$>
          renderCalls
            (since w (core.createFile (d :: rest) (dir +:+ stem +:+ ".mist.css")
                        target ext w).2)
        = [stem]).
Proof.
  split.
  - rewrite createFile_renderCalls. by destruct target.
  - intros dir stem Hdir Hstem Hslash.
    rewrite createFile_renderCalls, basename_mist by done. by destruct target.
Qed.

End componentName.

(** ** The theorems at work on the sample imports *)

Lemma createFile_output_path_witness :
  core.rendered
    (core.switchTarget hono (NodePath.basename ("ui/Button.mist" +:+ ".css") ".mist.css")
       "button")
    = Normal "hono:Button:button"
  /\ writtenPaths
       (since sample.orphaned
          (core.createFile ["button"; "primary"] "ui/Button.mist.css" hono ext_tsx
             sample.orphaned).2)
     = ["ui/Button.mist.tsx"].
Proof.
  split; [reflexivity |].
  apply (createFile_output_path "ui/Button.mist" "button" ["primary"] hono ext_tsx
           "hono:Button:button" sample.orphaned).
  reflexivity.
Defined.

Lemma getTarget_five_names_witness :
  ("solid" ∉ ["react"; "hono"; "astro"; "vue"; "svelte"])
  /\ core.getTarget "solid" = Throw (ErrorObject "Invalid target option")
  /\ cli.main ["react"; "solid"] sample.orphaned =
       (cli.exited 1,
        record (console_log cli.usageText)
          (record (console_error "Invalid render option") sample.orphaned)).
Proof.
  assert (Hsolid : "solid" ∉ ["react"; "hono"; "astro"; "vue"; "svelte"]).
  { apply (bool_decide_unpack _). vm_compute. exact I. }
  destruct (@getTarget_five_names string sample.imports)
    as (_ & _ & _ & _ & _ & _ & Hthrow & Hexit).
  split; [exact Hsolid | split; [exact (Hthrow "solid" Hsolid) |]].
  apply Hexit. apply Exists_cons_tl, Exists_cons_hd. exact Hsolid.
Defined.

Lemma component_name_is_basename_witness :
  NodePath.isDirPrefix "ui/" /\ "Button" <> "" /\ ("/"%char ∉ JSString.chars "Button")
  /\ componentName <$>
       renderCalls
         (since sample.orphaned
            (core.createFile ["button"] "ui/Button.mist.css" react ext_tsx
               sample.orphaned).2)
     = ["Button"].
Proof.
  assert (Hdir : NodePath.isDirPrefix "ui/") by (right; exists "ui"; reflexivity).
  assert (Hstem : "Button" <> "") by discriminate.
  assert (Hslash : "/"%char ∉ JSString.chars "Button").
  { apply (bool_decide_unpack _). vm_compute. exact I. }
  split; [exact Hdir | split; [exact Hstem | split; [exact Hslash |]]].
  exact (proj2 (component_name_is_basename "button" [] "ui/Button.mist.css" react ext_tsx
                  sample.orphaned) "ui/" "Button" Hdir Hstem Hslash).
Defined.

(** * Further properties of the three files *)

(** ** Target names *)

(** X1. getTarget hands back the string it was given: it returns a target
    exactly for the string that target is at run time. *)
Theorem getTarget_returns_argument (s : string) (t : Target) :
  core.getTarget s = Normal t <-> s = targetString t.
Proof.
  split.
  - unfold core.getTarget. case_name s ltac:(by intros [= <-]). intros [=].
  - intros ->. by destruct t.
Qed.

Section targets.
Context {Data : Type} `{Imports Data}.

Lemma validateTargets_cases (target : list string) (w : World Data) :
  cli.validateTargets target w =
    if bool_decide (Forall (fun s => s ∈ ["react"; "hono"; "astro"; "vue"; "svelte"]) target)
    then (cli.Continue tt, w)
    else (cli.Exit 1,
          record (console_log cli.usageText)
            (record (console_error "Invalid render option") w)).
Proof.
  case_bool_decide as Hall.
  - by apply validateTargets_valid.
  - apply validateTargets_invalid. by apply not_Forall_Exists in Hall; [| apply _].
Qed.

(** X2. The validation lets a list of names through, printing nothing, when
    every name is one of the five, and otherwise ends the process with
    code 1 after the error line and the usage text. *)
Theorem validateTargets_decides (target : list string) (w : World Data) :
  cli.validateTargets target w =
    if bool_decide (Forall (fun s => s ∈ ["react"; "hono"; "astro"; "vue"; "svelte"]) target)
    then (cli.Continue tt, w)
    else (cli.Exit 1,
          record (console_log cli.usageText)
            (record (console_error "Invalid render option") w)).
Proof. apply validateTargets_cases. Qed.

Lemma setExtension_target (t : Target) (w : World Data) :
  cli.setExtension (targetString t) w =
    (Normal (t, core.getExtension t),
     record (console_log
               match t with
               | react => "Rendering React components"
               | hono => "Rendering Hono components"
               | astro => "Rendering Astro components"
               | vue => "Rendering Vue components"
               | svelte => "Rendering Svelte components"
               end) w).
Proof. by destruct t. Qed.

Lemma mapSetExtension_names (ts : list Target) (w : World Data) :
  (cli.mapSetExtension (targetString <$> ts) w).1 =
    Normal ((fun t => (t, core.getExtension t)) <$> ts).
Proof.
  revert w. induction ts as [| t ts IH]; intros w; [done |].
  rewrite fmap_cons. cbn [cli.mapSetExtension]. unfold mbind, IO_bind.
  rewrite setExtension_target.
  specialize (IH (record (console_log
               match t with
               | react => "Rendering React components"
               | hono => "Rendering Hono components"
               | astro => "Rendering Astro components"
               | vue => "Rendering Vue components"
               | svelte => "Rendering Svelte components"
               end) w)).
  destruct (cli.mapSetExtension _ _) as [rs w']. simpl in IH. subst rs.
  by rewrite fmap_cons.
Qed.

(** X3. Mapping setExtension over the names of a list of targets never
    throws: it pairs every target, in order, with the extension
    getExtension gives it. *)
Theorem mapSetExtension_pairs (ts : list Target) (w : World Data) :
  (cli.mapSetExtension (targetString <$> ts) w).1 =
    Normal ((fun t => (t, core.getExtension t)) <$> ts).
Proof. apply mapSetExtension_names. Qed.

(** X4. A name that is none of the five makes the map throw
    [Error('Invalid target option')], whatever follows it. *)
Theorem mapSetExtension_throws (ts : list Target) (s : string) (rest : list string)
    (w : World Data) :
  s ∉ ["react"; "hono"; "astro"; "vue"; "svelte"] ->
  (cli.mapSetExtension ((targetString <$> ts) ++ s :: rest) w).1 =
    Throw (ErrorObject "Invalid target option").
Proof.
  intros Hs. revert w. induction ts as [| t ts IH]; intros w.
  - cbn [fmap list_fmap app cli.mapSetExtension]. unfold mbind, IO_bind, cli.setExtension.
    by rewrite (getTarget_other s Hs).
  - rewrite fmap_cons. cbn [app cli.mapSetExtension]. unfold mbind, IO_bind.
    rewrite setExtension_target.
    specialize (IH (record (console_log
               match t with
               | react => "Rendering React components"
               | hono => "Rendering Hono components"
               | astro => "Rendering Astro components"
               | vue => "Rendering Vue components"
               | svelte => "Rendering Svelte components"
               end) w)).
    destruct (cli.mapSetExtension _ _) as [rs w']. simpl in IH. by subst rs.
Qed.

End targets.

(** ** One file, one target *)

Section strings_more.
Import JSString.

Lemma allMatch_css (cs : list ascii) :
  allMatch [Lit "."%char; Lit "c"%char; Lit "s"%char; Lit "s"%char] cs = true ->
  cs = chars ".css".
Proof.
  intros Hm.
  destruct cs as [| c1 [| c2 [| c3 [| c4 [| c5 cs]]]]]; cbn [allMatch atomMatches] in Hm;
    rewrite ?andb_true_iff, ?Ascii.eqb_eq in Hm;
    try discriminate Hm; try (decompose [and] Hm; discriminate).
  destruct Hm as (<- & <- & <- & <- & _). reflexivity.
Qed.

(** [mist.replace(/\.css$/, r)] on a path without that suffix. *)
Lemma replace_css_other (r mist : string) :
  (forall base, mist <> base +:+ ".css") ->
  replaceAtEnd (anchoredBody "\.css$") r mist = mist.
Proof.
  intros Hnot. rewrite css_pattern. unfold replaceAtEnd.
  destruct (_ <=? _)%nat; [| done]. cbn [andb].
  destruct (allMatch _ _) eqn:Hm; [| done].
  apply allMatch_css in Hm. exfalso.
  apply (Hnot (str (take (length (chars mist) - 4) (chars mist)))).
  rewrite <- (str_chars mist) at 1.
  rewrite <- (take_drop (length (chars mist) - 4) (chars mist)) at 1.
  cbn [length] in Hm. rewrite Hm, str_app. reflexivity.
Qed.

End strings_more.

Section one_target.
Context {Data : Type} `{Imports Data}.

Lemma createFile_written (d : Data) (rest : list Data) (mist : string)
    (target : Target) (ext : Extension) (result : string) (w : World Data) :
  let path := JSString.replaceAtEnd (JSString.anchoredBody "\.css$") (extString ext) mist in
  core.rendered (core.switchTarget target (NodePath.basename mist ".mist.css") d)
    = Normal result ->
  denied w !! path = None ->
  (core.createFile (d :: rest) mist target ext w).1 = Fulfilled tt
  /\ files (core.createFile (d :: rest) mist target ext w).2 = <[path := result]> (files w)
  /\ denied (core.createFile (d :: rest) mist target ext w).2 = denied w.
Proof.
  intros path Hres Hok. rewrite createFile_first. cbv zeta. rewrite Hres.
  unfold fsPromises.writeFile. fold path. simpl. by rewrite Hok.
Qed.

(** X5. A successful write: createFile fulfils, the output path now holds the
    text of the renderer, every other path holds what it held, and the
    refusals of the operating system are as they were. *)
Theorem createFile_stores_result (d : Data) (rest : list Data) (mist : string)
    (target : Target) (ext : Extension) (result : string) (w : World Data) :
  let path := JSString.replaceAtEnd (JSString.anchoredBody "\.css$") (extString ext) mist in
  core.rendered (core.switchTarget target (NodePath.basename mist ".mist.css") d)
    = Normal result ->
  denied w !! path = None ->
  (core.createFile (d :: rest) mist target ext w).1 = Fulfilled tt
  /\ files (core.createFile (d :: rest) mist target ext w).2 = <[path := result]> (files w)
  /\ denied (core.createFile (d :: rest) mist target ext w).2 = denied w.
Proof. apply createFile_written. Qed.

Lemma createFile_elsewhere (data : list Data) (mist : string) (target : Target)
    (ext : Extension) (p : string) (w : World Data) :
  p <> JSString.replaceAtEnd (JSString.anchoredBody "\.css$") (extString ext) mist ->
  files (core.createFile data mist target ext w).2 !! p = files w !! p
  /\ denied (core.createFile data mist target ext w).2 = denied w.
Proof.
  intros Hp. destruct data as [| d rest]; [done |].
  rewrite createFile_first. cbv zeta.
  destruct (core.rendered _) as [result | [message | v]]; [| done | done].
  unfold fsPromises.writeFile. simpl.
  destruct (denied w !! _); [done |]. simpl. by rewrite lookup_insert_ne.
Qed.

(** X6. Whatever the data, the renderer and the operating system do,
    createFile leaves every path but its output path alone and never
    changes what the operating system refuses. *)
Theorem createFile_frame (data : list Data) (mist : string) (target : Target)
    (ext : Extension) (p : string) (w : World Data) :
  p <> JSString.replaceAtEnd (JSString.anchoredBody "\.css$") (extString ext) mist ->
  files (core.createFile data mist target ext w).2 !! p = files w !! p
  /\ denied (core.createFile data mist target ext w).2 = denied w.
Proof. apply createFile_elsewhere. Qed.

(** X7. A refused write: the promise of createFile rejects with the error of
    the operating system, no file changes, and no [Error ...] line is
    printed. *)
Theorem createFile_refused_write (d : Data) (rest : list Data) (mist : string)
    (target : Target) (ext : Extension) (result message : string) (w : World Data) :
  let path := JSString.replaceAtEnd (JSString.anchoredBody "\.css$") (extString ext) mist in
  core.rendered (core.switchTarget target (NodePath.basename mist ".mist.css") d)
    = Normal result ->
  denied w !! path = Some message ->
  (core.createFile (d :: rest) mist target ext w).1 = Rejected (ErrorObject message)
  /\ files (core.createFile (d :: rest) mist target ext w).2 = files w
  /\ reported (since w (core.createFile (d :: rest) mist target ext w).2) = [].
Proof.
  intros path Hres Hden.
  rewrite (createFile_write_refused d rest mist target ext result message w Hres Hden).
  repeat split. erewrite since_record; [| simpl; rewrite <- app_assoc; reflexivity]. done.
Qed.


(** X9. A path that does not end in [.css] is its own output path: the text
    of the renderer is written over the stylesheet itself. *)
Theorem createFile_other_suffix (d : Data) (rest : list Data) (mist : string)
    (target : Target) (ext : Extension) (result : string) (w : World Data) :
  (forall base, mist <> base +:+ ".css") ->
  core.rendered (core.switchTarget target (NodePath.basename mist ".mist.css") d)
    = Normal result ->
  writtenPaths (since w (core.createFile (d :: rest) mist target ext w).2) = [mist]
  /\ (denied w !! mist = None ->
      files (core.createFile (d :: rest) mist target ext w).2 !! mist = Some result).
Proof.
  intros Hsuffix Hres. split.
  - rewrite createFile_trace, Hres. simpl. by rewrite replace_css_other.
  - intros Hok.
    pose proof (createFile_written d rest mist target ext result w Hres) as Hst.
    cbv zeta in Hst. rewrite replace_css_other in Hst by done.
    destruct (Hst Hok) as (_ & -> & _). apply lookup_insert_eq.
Qed.

End one_target.

(** ** One file, all targets *)

Lemma mapM_app {Data A B} (f : A -> IO Data B) (l1 l2 : list A) (w : World Data) :
  mapM f (l1 ++ l2) w =
    let '(bs1, w1) := mapM f l1 w in
    let '(bs2, w2) := mapM f l2 w1 in
    ((bs1 ++ bs2)%list, w2).
Proof.
  revert w. induction l1 as [| a l1 IH]; intros w.
  - cbn [app]. change (mapM f [] w) with (([] : list B), w). cbv iota beta.
    by destruct (mapM f l2 w).
  - cbn [app]. rewrite !mapM_cons. destruct (f a w) as [b w1]. rewrite IH.
    destruct (mapM f l1 w1) as [bs1 w2]. by destruct (mapM f l2 w2).
Qed.

(** A property of the world that every step keeps is kept by the map. *)
Lemma mapM_invariant {Data A B} (I : World Data -> Prop) (f : A -> IO Data B)
    (l : list A) (w : World Data) :
  (forall a w', a ∈ l -> I w' -> I (f a w').2) ->
  I w -> I (mapM f l w).2.
Proof.
  revert w. induction l as [| a l IH]; intros w Hstep Hw; [done |].
  rewrite mapM_cons.
  pose proof (Hstep a w (list_elem_of_here _ _) Hw) as Ha.
  destruct (f a w) as [b w1].
  specialize (IH w1 (fun a' w' Hin => Hstep a' w' (list_elem_of_further _ _ _ Hin)) Ha).
  by destruct (mapM f l w1).
Qed.

Lemma grows_intro {Data} (w w' : World Data) (evs : list (Event Data)) :
  output w' = (output w ++ evs)%list -> grows w w'.
Proof. intros Hout. unfold grows. by rewrite (since_record w evs w' Hout). Qed.

Lemma grows_refl {Data} (w : World Data) : grows w w.
Proof. apply (grows_intro w w []). by rewrite app_nil_r. Qed.

Lemma grows_trans {Data} (w1 w2 w3 : World Data) :
  grows w1 w2 -> grows w2 w3 ->
  grows w1 w3 /\ since w1 w3 = (since w1 w2 ++ since w2 w3)%list.
Proof.
  unfold grows. intros H12 H23.
  assert (Hout : output w3 = (output w1 ++ (since w1 w2 ++ since w2 w3))%list).
  { rewrite H23, H12 at 1. by rewrite <- app_assoc. }
  split; [by apply (grows_intro _ _ _ Hout) | by apply since_record].
Qed.

Lemma grows_record {Data} (e : Event Data) (w : World Data) :
  grows w (record e w) /\ since w (record e w) = [e].
Proof.
  assert (Hout : output (record e w) = (output w ++ [e])%list) by done.
  split; [by apply (grows_intro _ _ _ Hout) | by apply since_record].
Qed.

Section all_targets.
Context {Data : Type} `{Imports Data}.

Lemma createFile_grows (data : list Data) (mist : string) (target : Target)
    (ext : Extension) (w : World Data) :
  grows w (core.createFile data mist target ext w).2.
Proof.
  destruct data as [| d rest]; [apply grows_refl |].
  rewrite createFile_first. cbv zeta.
  destruct (core.rendered _) as [result | [message | v]].
  - eapply grows_intro. rewrite writeFile_trace. simpl. by rewrite <- app_assoc.
  - eapply grows_intro. simpl. by rewrite <- app_assoc.
  - eapply grows_intro. simpl. by rewrite <- !app_assoc.
Qed.

Lemma discard_grows {A} (p : Settled A) (w : World Data) :
  grows w (discard p w).2
  /\ renderCalls (since w (discard p w).2) = []
  /\ files (discard p w).2 = files w
  /\ denied (discard p w).2 = denied w.
Proof.
  destruct p as [a | e]; simpl.
  - split; [apply grows_refl |]. unfold since. by rewrite drop_all.
  - destruct (grows_record (unhandled_rejection e) w) as [Hg Hs].
    split; [exact Hg |]. unfold emit. simpl. by rewrite Hs.
Qed.

(** The callback of [targets.map] in createFiles, for one entry. *)
Lemma callback_step (data : list Data) (mist : string) (target : Target)
    (ext : Extension) (w : World Data) :
  let cb := (p ← core.createFile data mist target ext; discard p;; mret tt) in
  grows w (cb w).2
  /\ renderCalls (since w (cb w).2)
     = renderCalls (since w (core.createFile data mist target ext w).2)
  /\ files (cb w).2 = files (core.createFile data mist target ext w).2
  /\ denied (cb w).2 = denied (core.createFile data mist target ext w).2.
Proof.
  intros cb. unfold cb, mbind, IO_bind, mret, IO_ret.
  pose proof (createFile_grows data mist target ext w) as Hg1.
  destruct (core.createFile data mist target ext w) as [p w1]. cbn [snd] in *.
  destruct (discard_grows p w1) as (Hg2 & Hr & Hf & Hd).
  destruct (discard p w1) as [u w2]. cbn [snd] in *.
  destruct (grows_trans w w1 w2 Hg1 Hg2) as [Hg Hs].
  split; [exact Hg |]. rewrite Hs. unfold renderCalls in *.
  by rewrite omap_app, Hr, app_nil_r.
Qed.


Lemma createFiles_world (data : list Data) (mist : string)
    (targets : list (Target * Extension)) (w : World Data) :
  (core.createFiles data mist targets w).2 =
    (mapM (fun '(target, ext) =>
             p ← core.createFile data mist target ext; discard p;; mret tt)
          targets w).2.
Proof.
  unfold core.createFiles, mbind at 1, IO_bind at 1.
  by destruct (mapM _ targets w).
Qed.

(** X10. createFiles calls the renderer once for every entry of the list of
    targets, in the order of the list and always with the first schema,
    also after a renderer has thrown or a write has been refused for an
    earlier entry. *)
Theorem createFiles_renders_every_target (d : Data) (rest : list Data) (mist : string)
    (targets : list (Target * Extension)) (w : World Data) :
  renderCalls (since w (core.createFiles (d :: rest) mist targets w).2) =
    (fun entry => core.switchTarget entry.1 (NodePath.basename mist ".mist.css") d)
      <$> targets.
Proof.
  rewrite createFiles_world.
  match goal with |- context [mapM ?f targets w] => set (callback := f) end.
  assert (Hmap : grows w (mapM callback targets w).2
                 /\ renderCalls (since w (mapM callback targets w).2) =
                      (fun entry =>
                         core.switchTarget entry.1 (NodePath.basename mist ".mist.css") d)
                        <$> targets).
  { clear. revert w. induction targets as [| [target ext] targets IH]; intros w.
    - split; [apply grows_refl |]. unfold since. simpl. by rewrite drop_all.
    - rewrite mapM_cons.
      destruct (callback_step (d :: rest) mist target ext w) as (Hg1 & Hr1 & _).
      rewrite createFile_renderCalls in Hr1.
      change ((p ← core.createFile (d :: rest) mist target ext; discard p;; mret tt) w)
        with (callback (target, ext) w) in Hg1, Hr1.
      destruct (callback (target, ext) w) as [u w1]. cbn [snd] in *.
      destruct (IH w1) as [Hg2 Hr2].
      destruct (mapM callback targets w1) as [us w2]. cbn [snd] in *.
      destruct (grows_trans w w1 w2 Hg1 Hg2) as [Hg Hs].
      split; [exact Hg |]. rewrite Hs. unfold renderCalls in *.
      by rewrite omap_app, Hr1, Hr2. }
  exact (proj2 Hmap).
Qed.

Lemma createFiles_elsewhere (data : list Data) (mist : string)
    (targets : list (Target * Extension)) (p : string) (w : World Data) :
  (forall entry, entry ∈ targets ->
     p <> JSString.replaceAtEnd (JSString.anchoredBody "\.css$") (extString entry.2) mist) ->
  files (core.createFiles data mist targets w).2 !! p = files w !! p
  /\ denied (core.createFiles data mist targets w).2 = denied w.
Proof.
  intros Hp. rewrite createFiles_world.
  match goal with |- context [mapM ?f targets w] => set (callback := f) end.
  apply (mapM_invariant
           (fun w' => files w' !! p = files w !! p /\ denied w' = denied w)
           callback targets w); [| done].
  intros [target ext] w1 Hin [Hf Hd].
  destruct (callback_step data mist target ext w1) as (_ & _ & Hf1 & Hd1).
  change ((p0 ← core.createFile data mist target ext; discard p0;; mret tt) w1)
    with (callback (target, ext) w1) in Hf1, Hd1.
  rewrite Hf1, Hd1.
  destruct (createFile_elsewhere data mist target ext p w1 (Hp (target, ext) Hin)) as [-> ->].
  done.
Qed.

(** X11. createFiles changes no path but the output paths of its targets, and
    never what the operating system refuses. *)
Theorem createFiles_frame (data : list Data) (mist : string)
    (targets : list (Target * Extension)) (p : string) (w : World Data) :
  (forall entry, entry ∈ targets ->
     p <> JSString.replaceAtEnd (JSString.anchoredBody "\.css$") (extString entry.2) mist) ->
  files (core.createFiles data mist targets w).2 !! p = files w !! p
  /\ denied (core.createFiles data mist targets w).2 = denied w.
Proof. apply createFiles_elsewhere. Qed.


End all_targets.

(** ** The cleanup pass, file by file *)

Section unlink.
Import JSString.

Lemma replaceAtEnd_tail (body : list Atom) (tail : list ascii) (r base : string) :
  length body = length tail -> allMatch body tail = true ->
  replaceAtEnd body r (base +:+ str tail) = base +:+ r.
Proof.
  intros Hlen Hm. unfold replaceAtEnd.
  rewrite chars_app, chars_str, length_app, Hlen, Nat.add_sub.
  rewrite drop_app_length, take_app_length, Hm.
  replace (length tail <=? length (chars base) + length tail)%nat with true
    by (symmetry; apply Nat.leb_le; lia).
  by rewrite str_app, !str_chars.
Qed.

(** The pattern [new RegExp(`.${ext}$`)] eats one character more than the
    extension: on [base], one character [c] and the extension it gives
    [base.css]. *)
Lemma replace_unlink (ext : Extension) (base : string) (c : ascii) :
  lineTerminator c = false ->
  replaceAtEnd (anchoredBody ("." +:+ extString ext +:+ "$")) ".css"
    (base +:+ String c (extString ext)) = base +:+ ".css".
Proof.
  intros Hc.
  rewrite <- (str_chars (String c (extString ext))).
  apply replaceAtEnd_tail; [by destruct ext |].
  destruct ext; cbn -[lineTerminator];
    match goal with
    | |- allMatch ?b _ = true => let b' := eval vm_compute in b in change b with b'
    end;
    cbn [allMatch atomMatches]; by rewrite Hc.
Qed.

Context {Data : Type} `{Imports Data}.

(** X17. What [unlink] does with a file named [base], one more character and
    the extension (the doubled dot of the glob pattern, or the last
    character of the name of a generated file): it looks for [base.css];
    if that exists nothing happens, otherwise it asks to delete
    [base.css] itself, which fails with ENOENT.  The file it was given is
    never the one it deletes. *)
Theorem unlink_rebuilt_path (base : string) (c : ascii) (ext : Extension)
    (w : World Data) :
  lineTerminator c = false ->
  cli.unlink (base +:+ String c (extString ext)) ext w =
    if bool_decide (is_Some (files w !! (base +:+ ".css")))
    then (Fulfilled tt, w)
    else (Rejected (fs.noEntry "unlink" (base +:+ ".css")),
          record (unlink_call (base +:+ ".css")) w).
Proof.
  intros Hc. unfold cli.unlink. rewrite replace_unlink by done.
  unfold mbind, IO_bind, fs.existsSync.
  case_bool_decide as Hex; [done |]. cbn [negb].
  unfold fsPromises.unlink. simpl.
  destruct (files w !! _) eqn:Hlook; [| done].
  exfalso. apply Hex. by eexists.
Qed.

End unlink.

(** ** The handlers of the watcher *)

Section watch.
Context {Data : Type} `{Imports Data}.

(** X18. A change event does to the changed stylesheet what the batch build
    does to every stylesheet. *)
Theorem onChange_as_batch (targetWithExt : list (Target * Extension)) (file : string)
    (w : World Data) :
  cli.onChange targetWithExt file w = (tt, (cli.buildFile targetWithExt file w).2).
Proof.
  unfold cli.onChange, cli.buildFile, fs.readFileSync, fsPromises.readFile.
  destruct (files w !! file) as [text |].
  - destruct (parse text) as [data | e].
    + destruct (core.createFiles _ _ _ _) as [p w2]. by destruct p.
    + by destruct e.
  - reflexivity.
Qed.

Lemma fsPromises_unlink_files (path : string) (w : World Data) :
  files (fsPromises.unlink path w).2 = delete path (files w)
  /\ denied (fsPromises.unlink path w).2 = denied w.
Proof.
  unfold fsPromises.unlink. simpl.
  destruct (files w !! path) eqn:Hlook; [done |]. simpl. by rewrite delete_id.
Qed.

Lemma onUnlink_step (path : string) (w : World Data) :
  let step := (p ← fsPromises.unlink path; discard p) in
  files (step w).2 = delete path (files w)
  /\ denied (step w).2 = denied w.
Proof.
  intros step. unfold step, mbind, IO_bind.
  destruct (fsPromises_unlink_files path w) as [Hf Hd].
  destruct (fsPromises.unlink path w) as [p w1]. cbn [snd] in *.
  destruct (discard_grows p w1) as (_ & _ & Hf' & Hd'). by rewrite Hf', Hd', Hf, Hd.
Qed.

Lemma onUnlink_world (targetWithExt : list (Target * Extension)) (file : string)
    (w : World Data) :
  (cli.onUnlink targetWithExt file w).2 =
    (mapM (fun '(_, ext) =>
             p ← fsPromises.unlink
                   (JSString.replaceAtEnd (JSString.anchoredBody "\.css$")
                      (extString ext) file);
             discard p) targetWithExt w).2.
Proof.
  unfold cli.onUnlink, mbind at 1, IO_bind at 1. by destruct (mapM _ _ w).
Qed.

Lemma onUnlink_files (targetWithExt : list (Target * Extension))
    (base p : string) (w : World Data) :
  files (cli.onUnlink targetWithExt (base +:+ ".css") w).2 !! p =
    if bool_decide (p ∈ (fun entry => base +:+ extString entry.2) <$> targetWithExt)
    then None
    else files w !! p.
Proof.
  rewrite onUnlink_world.
  match goal with |- context [mapM ?f targetWithExt w] => set (callback := f) end.
  revert w.
  induction targetWithExt as [| [target ext] targets IH]; intros w; [done |].
  rewrite mapM_cons.
  assert (Hf : files (callback (target, ext) w).2 =
                 delete (JSString.replaceAtEnd (JSString.anchoredBody "\.css$")
                           (extString ext) (base +:+ ".css")) (files w))
    by apply onUnlink_step.
  destruct (callback (target, ext) w) as [u w1]. cbn [snd] in Hf.
  specialize (IH w1). destruct (mapM callback targets w1) as [us w2]. cbn [snd] in *.
  rewrite IH, Hf, replace_css_suffix, fmap_cons. cbn [snd].
  destruct (decide (p = base +:+ extString ext)) as [-> | Hne].
  - rewrite lookup_delete_eq, (bool_decide_eq_true_2 (_ ∈ _ :: _)) by constructor.
    by case_bool_decide.
  - rewrite lookup_delete_ne by done.
    case_bool_decide as Hin.
    + rewrite bool_decide_eq_true_2; [done | by constructor].
    + rewrite bool_decide_eq_false_2; [done |].
      intros Hin'. apply elem_of_cons in Hin' as [? | ?]; done.
Qed.

(** X19. When the stylesheet [base.css] is deleted, the handler leaves no
    generated file of it for any target of the list, and every other
    path holds what it held. *)
Theorem onUnlink_removes_generated (targetWithExt : list (Target * Extension))
    (base p : string) (w : World Data) :
  files (cli.onUnlink targetWithExt (base +:+ ".css") w).2 !! p =
    if bool_decide (p ∈ (fun entry => base +:+ extString entry.2) <$> targetWithExt)
    then None
    else files w !! p.
Proof. apply onUnlink_files. Qed.

End watch.

Section watch_shared.
Context {Data : Type} `{Imports Data}.

Lemma fsPromises_unlink_grows (path : string) (w : World Data) :
  grows w (fsPromises.unlink path w).2.
Proof.
  eapply grows_intro. unfold fsPromises.unlink. simpl.
  by destruct (files w !! path).
Qed.

Lemma onUnlink_step_grows (path : string) (w : World Data) :
  grows w ((p ← fsPromises.unlink path; discard p) w).2.
Proof.
  unfold mbind, IO_bind.
  pose proof (fsPromises_unlink_grows path w) as Hg1.
  destruct (fsPromises.unlink path w) as [p w1]. cbn [snd] in *.
  destruct (discard_grows p w1) as (Hg2 & _).
  destruct (discard p w1) as [u w2]. cbn [snd] in *.
  by destruct (grows_trans w w1 w2 Hg1 Hg2).
Qed.

Lemma mapM_grows {A B} (f : A -> IO Data B) (l : list A) (w : World Data) :
  (forall a w', grows w' (f a w').2) -> grows w (mapM f l w).2.
Proof.
  intros Hf. revert w. induction l as [| a l IH]; intros w; [apply grows_refl |].
  rewrite mapM_cons. specialize (Hf a w). destruct (f a w) as [b w1].
  specialize (IH w1). destruct (mapM f l w1) as [bs w2]. cbn [snd] in *.
  by destruct (grows_trans w w1 w2 Hf IH).
Qed.

(** A missing generated file: the handler's [unlink] rejects and, its
    promise being dropped, the ENOENT stays unhandled. *)
Lemma onUnlink_step_missing (path : string) (w : World Data) :
  files w !! path = None ->
  since w ((p ← fsPromises.unlink path; discard p) w).2 =
    [unlink_call path; unhandled_rejection (fs.noEntry "unlink" path)].
Proof.
  intros Hno. apply since_record.
  unfold mbind, IO_bind, fsPromises.unlink. simpl. rewrite Hno. simpl.
  by rewrite <- app_assoc.
Qed.

(** X20. When two entries of the list of targets have the same extension, as
    react and hono have, the deletion of a stylesheet always leaves an
    unhandled ENOENT rejection for their common generated file: the
    second [unlink] comes after the first has removed it. *)
Theorem onUnlink_shared_extension (l1 l2 l3 : list (Target * Extension))
    (t1 t2 : Target) (ext : Extension) (base : string) (w : World Data) :
  fs.noEntry "unlink" (base +:+ extString ext)
  ∈ unhandled
      (since w (cli.onUnlink (l1 ++ (t1, ext) :: l2 ++ (t2, ext) :: l3)
                  (base +:+ ".css") w).2).
Proof.
  pose proof (onUnlink_files (l1 ++ (t1, ext) :: l2)%list base
                (base +:+ extString ext) w) as Hgone.
  rewrite bool_decide_eq_true_2 in Hgone.
  2:{ rewrite fmap_app, fmap_cons. apply elem_of_app. right. constructor. }
  rewrite onUnlink_world in Hgone. rewrite onUnlink_world.
  match goal with |- context [mapM ?f _ w] => set (callback := f) in * end.
  assert (Hcb : forall a w', grows w' (callback a w').2).
  { intros [t e] w'. apply onUnlink_step_grows. }
  replace (l1 ++ (t1, ext) :: l2 ++ (t2, ext) :: l3)%list
    with ((l1 ++ (t1, ext) :: l2) ++ (t2, ext) :: l3)%list
    by (by rewrite <- app_assoc).
  rewrite mapM_app.
  pose proof (mapM_grows callback (l1 ++ (t1, ext) :: l2)%list w Hcb) as Hg1.
  destruct (mapM callback (l1 ++ (t1, ext) :: l2)%list w) as [us1 w1]. cbn [snd] in *.
  rewrite mapM_cons.
  pose proof (Hcb (t2, ext) w1) as Hg2.
  assert (Hs2 : since w1 (callback (t2, ext) w1).2 =
                  [unlink_call (base +:+ extString ext);
                   unhandled_rejection (fs.noEntry "unlink" (base +:+ extString ext))]).
  { unfold callback. cbv beta iota. rewrite replace_css_suffix.
    by apply onUnlink_step_missing. }
  destruct (callback (t2, ext) w1) as [u w2]. cbn [snd] in *.
  pose proof (mapM_grows callback l3 w2 Hcb) as Hg3.
  destruct (mapM callback l3 w2) as [us3 w3]. cbn [snd] in *.
  destruct (grows_trans w1 w2 w3 Hg2 Hg3) as [Hg23 Hs23].
  destruct (grows_trans w w1 w3 Hg1 Hg23) as [_ Hs].
  rewrite Hs, Hs23, Hs2. unfold unhandled. rewrite !omap_app.
  apply elem_of_app. right. apply elem_of_app. left. cbn. constructor.
Qed.

End watch_shared.

(** ** The older driver against the newer one *)

Section simulation.
Context {Data : Type}.

Lemma sameButFlush_refl (w : World Data) : sameButFlush w w.
Proof. done. Qed.

Lemma sameButFlush_record (e1 e2 : Event Data) (w1 w2 : World Data) :
  unflush e1 = unflush e2 -> sameButFlush w1 w2 ->
  sameButFlush (record e1 w1) (record e2 w2).
Proof.
  intros He (Hf & Hd & Ho). repeat split; [done | done |].
  simpl. by rewrite !fmap_app, Ho, !fmap_cons, He.
Qed.

Lemma simulates_ret {A} (a : A) : simulates (mret a : IO Data A) (mret a).
Proof. by intros w1 w2 Hs. Qed.

Lemma simulates_bind {A B} (f g : IO Data A) (k k' : A -> IO Data B) :
  simulates f g -> (forall a, simulates (k a) (k' a)) ->
  simulates (f ≫= k) (g ≫= k').
Proof.
  intros Hfg Hk w1 w2 Hs. unfold mbind, IO_bind.
  destruct (Hfg w1 w2 Hs) as [Ha Hs'].
  destruct (f w1) as [a w1'], (g w2) as [a' w2']. cbn [fst snd] in *. subst a'.
  by apply Hk.
Qed.

Lemma simulates_mapM {A B} (f g : A -> IO Data B) (l : list A) :
  (forall a, simulates (f a) (g a)) -> simulates (mapM f l) (mapM g l).
Proof.
  intros Hfg. induction l as [| a l IH]; [apply simulates_ret |].
  cbn [mapM]. apply simulates_bind; [apply Hfg |]. intros b.
  apply simulates_bind; [apply IH |]. intros bs. apply simulates_ret.
Qed.

Lemma simulates_emit (e1 e2 : Event Data) :
  unflush e1 = unflush e2 -> simulates (emit e1) (emit e2).
Proof. intros He w1 w2 Hs. split; [done |]. by apply sameButFlush_record. Qed.

Lemma simulates_discard {A} (p : Settled A) :
  simulates (discard p : IO Data unit) (discard p).
Proof. destruct p; [apply simulates_ret | by apply simulates_emit]. Qed.

Lemma simulates_reportError (mist : string) (e : Thrown) :
  simulates (reportError mist e : IO Data unit) (reportError mist e).
Proof.
  destruct e; [by apply simulates_emit |].
  unfold reportError. apply simulates_bind; [by apply simulates_emit |].
  intros _. by apply simulates_emit.
Qed.

(** The writes of the two drivers differ in the flush option only. *)
Lemma simulates_writeFile (path data : string) (f1 f2 : bool) :
  simulates (fsPromises.writeFile path data f1 : IO Data (Settled unit))
            (fsPromises.writeFile path data f2).
Proof.
  intros w1 w2 Hs.
  pose proof (sameButFlush_record (writeFile_call path data f1)
                (writeFile_call path data f2) w1 w2 eq_refl Hs) as (Hf & Hd & Ho).
  unfold fsPromises.writeFile. cbv zeta. rewrite Hd.
  destruct (denied (record _ w2) !! path); [done |].
  split; [done |]. repeat split; simpl in *; congruence.
Qed.



End simulation.

Section drivers.
Context {Data : Type} `{Imports Data}.

Lemma bin_validateTargets_eq (target : list string) (w : World Data) :
  bin.validateTargets target w = cli.validateTargets target w.
Proof.
  revert w. induction target as [| s target IH]; intros w; [done |].
  cbn [bin.validateTargets cli.validateTargets]. unfold core.getTarget.
  case_name s ltac:(apply IH). reflexivity.
Qed.

(** X21. The validation by comparison with the five names and the validation
    through getTarget do the same on every list. *)
Theorem bin_validateTargets_same (target : list string) (w : World Data) :
  bin.validateTargets target w = cli.validateTargets target w.
Proof. apply bin_validateTargets_eq. Qed.

Lemma bin_mapSetExtension_eq (ts : list Target) (w : World Data) :
  bin.mapSetExtension (targetString <$> ts) w =
    (cli.Continue ((fun t => (t, core.getExtension t)) <$> ts),
     (cli.mapSetExtension (targetString <$> ts) w).2).
Proof.
  revert w. induction ts as [| t ts IH]; intros w; [done |].
  rewrite fmap_cons. cbn [bin.mapSetExtension cli.mapSetExtension].
  unfold mbind, IO_bind. rewrite setExtension_target.
  assert (Hbin : bin.setExtension (targetString t) w =
                   (cli.Continue (t, core.getExtension t),
                    (cli.setExtension (targetString t) w).2)) by by destruct t.
  rewrite Hbin, setExtension_target. cbn [snd]. rewrite IH.
  pose proof (mapSetExtension_names ts
                (record (console_log
                           match t with
                           | react => "Rendering React components"
                           | hono => "Rendering Hono components"
                           | astro => "Rendering Astro components"
                           | vue => "Rendering Vue components"
                           | svelte => "Rendering Svelte components"
                           end) w)) as Hcli.
  destruct (cli.mapSetExtension _ _) as [rs w']. cbn [fst snd] in *. by subst rs.
Qed.

(** X22. The extensions written out in the older setExtension are those of
    getExtension: on the names of a list of targets both maps give the
    same pairs and print the same lines. *)
Theorem bin_mapSetExtension_same (ts : list Target) (w : World Data) :
  bin.mapSetExtension (targetString <$> ts) w =
    (cli.Continue ((fun t => (t, core.getExtension t)) <$> ts),
     (cli.mapSetExtension (targetString <$> ts) w).2).
Proof. apply bin_mapSetExtension_eq. Qed.

Lemma createFiles_settles (data : list Data) (mist : string)
    (targets : list (Target * Extension)) (w : World Data) :
  (core.createFiles data mist targets w).1 = Fulfilled tt.
Proof.
  unfold core.createFiles, mbind, IO_bind.
  destruct (mapM _ targets w) as [promises w1].
  unfold mret, IO_ret. simpl. by rewrite Promise_all_values.
Qed.

Lemma simulates_createFile (data : list Data) (mist : string) (target : Target)
    (ext : Extension) :
  simulates (bin.createFile data mist target ext) (core.createFile data mist target ext).
Proof.
  intros w1 w2 Hs. destruct data as [| d rest]; [done |].
  rewrite bin_createFile_first, createFile_first. cbv zeta.
  pose proof (sameButFlush_record
                (render_call (core.switchTarget target
                                (NodePath.basename mist ".mist.css") d))
                _ w1 w2 eq_refl Hs) as Hs1.
  destruct (core.rendered _) as [result | e].
  - by apply simulates_writeFile.
  - split; [done |]. by apply simulates_reportError.
Qed.

Lemma simulates_callbacks (data : list Data) (mist : string)
    (targets : list (Target * Extension)) :
  simulates
    (mapM (fun '(target, ext) =>
             p ← bin.createFile data mist target ext; discard p;; mret tt) targets)
    (mapM (fun '(target, ext) =>
             p ← core.createFile data mist target ext; discard p;; mret tt) targets).
Proof.
  apply simulates_mapM. intros [target ext].
  apply simulates_bind; [apply simulates_createFile |]. intros p.
  apply simulates_bind; [apply simulates_discard |]. intros _. apply simulates_ret.
Qed.

Lemma simulates_createFiles (mist : string) (targets : list (Target * Extension)) :
  simulates (bin.createFiles mist targets) (cli.buildFile targets mist).
Proof.
  intros w1 w2 Hs. unfold bin.createFiles, cli.buildFile, fs.readFileSync,
    fsPromises.readFile.
  destruct Hs as (Hf & Hd & Ho). rewrite Hf.
  destruct (files w2 !! mist) as [text |].
  2:{ split; [done |]. by apply simulates_reportError. }
  destruct (parse text) as [data | e].
  2:{ split; [done |]. by apply simulates_reportError. }
  pose proof (createFiles_settles data mist targets w2) as Hnever.
  pose proof (createFiles_world data mist targets w2) as Hworld.
  destruct (core.createFiles data mist targets w2) as [p w2']. cbn [fst snd] in *.
  subst p. cbn [discard mret IO_ret snd].
  destruct (simulates_callbacks data mist targets w1 w2) as [Hps Hs']; [done |].
  rewrite <- Hworld in Hs'. unfold mbind at 1 4, IO_bind at 1 4.
  destruct (mapM _ targets w1) as [ps w1']. cbn [fst snd] in *.
  unfold mret, IO_ret. cbn [fst snd]. by rewrite Promise_all_values.
Qed.

(** X23. For one stylesheet the older createFiles (which reads and parses the
    file itself) and the step of the newer batch build settle alike and
    leave the same files and the same trace, the flush option of the
    writes apart. *)
Theorem bin_createFiles_simulates (mist : string) (targets : list (Target * Extension)) :
  simulates (bin.createFiles mist targets) (cli.buildFile targets mist).
Proof. apply simulates_createFiles. Qed.




End drivers.

(** ** The whole script *)

Section last_character.
Import JSString.

Lemma last_with_extension (a : string) (ext : Extension) :
  last (chars (a +:+ extString ext)) <> Some "s"%char.
Proof. rewrite chars_app, last_app. by destruct ext. Qed.

Lemma last_with_css (a : string) : last (chars (a +:+ ".css")) = Some "s"%char.
Proof. by rewrite chars_app, last_app. Qed.

(** No output path ends in [.css]: either the suffix was replaced by an
    extension, or the path had no such suffix. *)
Lemma output_path_not_css (ext : Extension) (mist base : string) :
  replaceAtEnd (anchoredBody "\.css$") (extString ext) mist <> base +:+ ".css".
Proof.
  intros Heq.
  pose proof (replace_css_suffix base (extString ext)) as Hsuffix.
  rewrite css_pattern in Heq, Hsuffix. unfold replaceAtEnd in Heq, Hsuffix.
  destruct ((_ <=? _)%nat && allMatch _ (drop _ (chars mist))) eqn:Hcond.
  - apply (f_equal (fun s => last (chars s))) in Heq.
    rewrite chars_str, last_app, last_with_css in Heq. by destruct ext.
  - subst mist. rewrite Hcond in Hsuffix.
    apply (last_with_extension base ext). rewrite <- Hsuffix. apply last_with_css.
Qed.

End last_character.



Section script.
Context {Data : Type} `{Imports Data}.

Lemma reportError_files (mist : string) (e : Thrown) (w : World Data) :
  files (reportError mist e w).2 = files w.
Proof. by destruct e. Qed.

Lemma buildFile_keeps (targetWithExt : list (Target * Extension)) (mist base : string)
    (w : World Data) :
  files (cli.buildFile targetWithExt mist w).2 !! (base +:+ ".css")
    = files w !! (base +:+ ".css").
Proof.
  unfold cli.buildFile, fsPromises.readFile.
  destruct (files w !! mist) as [text |] eqn:Hread;
    [| cbn [snd]; by rewrite reportError_files].
  destruct (parse text) as [data | e]; [| cbn [snd]; by rewrite reportError_files].
  destruct (createFiles_elsewhere data mist targetWithExt (base +:+ ".css") w) as [Hf _].
  { intros entry _ Heq. by apply (output_path_not_css entry.2 mist base). }
  destruct (core.createFiles data mist targetWithExt w) as [p w2]. cbn [snd] in *.
  by destruct (discard_grows p w2) as (_ & _ & -> & _).
Qed.

Lemma mapSetExtension_files (target : list string) (w : World Data) :
  files (cli.mapSetExtension target w).2 = files w.
Proof.
  revert w. induction target as [| s target IH]; intros w; [done |].
  cbn [cli.mapSetExtension]. unfold mbind, IO_bind.
  assert (Hs : files (cli.setExtension s w).2 = files w).
  { unfold cli.setExtension. by destruct (core.getTarget s). }
  destruct (cli.setExtension s w) as [[entry | e] w1]; cbn [snd] in Hs; [| done].
  specialize (IH w1). destruct (cli.mapSetExtension target w1) as [rs w2].
  cbn [snd] in *. unfold mret, IO_ret. cbn [snd]. congruence.
Qed.

(** X25. The script never changes and never deletes a file whose name ends in
    [.css], whatever the targets, the stylesheets, the renderers and the
    glob: validation, batch build and cleanup leave every stylesheet with
    the text it had. *)
Theorem main_keeps_stylesheets (target : list string) (base : string) (w : World Data) :
  files (cli.main target w).2 !! (base +:+ ".css") = files w !! (base +:+ ".css").
Proof.
  unfold cli.main. rewrite validateTargets_cases.
  case_bool_decide as Hall; [| done].
  pose proof (mapSetExtension_files target w) as Hset.
  destruct (cli.mapSetExtension target w) as [[targetWithExt | e] w2]; cbn [snd] in Hset;
    [| cbn [snd]; by rewrite Hset].
  assert (Hbuild : files (cli.build targetWithExt w2).2 !! (base +:+ ".css")
                   = files w2 !! (base +:+ ".css")).
  { unfold cli.build, mbind, IO_bind.
    pose proof (mapM_invariant
                  (fun w' => files w' !! (base +:+ ".css") = files w2 !! (base +:+ ".css"))
                  (cli.buildFile targetWithExt) (globby "**/*.mist.css" (files w2)) w2)
      as Hinv.
    destruct (mapM _ _ w2) as [ps w3]. apply Hinv; [| done].
    intros mist w' _ Hw'. by rewrite buildFile_keeps. }
  pose proof (build_fulfils targetWithExt w2) as Hfulfils.
  destruct (cli.build targetWithExt w2) as [b w3]. cbn [fst snd] in *. subst b.
  pose proof (cleanup_removes_nothing targetWithExt w3) as Hclean.
  destruct (cli.cleanup targetWithExt w3) as [[c | e] w4]; cbn [snd] in *;
    by rewrite Hclean, Hbuild, Hset.
Qed.




End script.

(** ** The batch build and the cleanup pass, for every input *)

Section passes.
Context {Data : Type} `{Imports Data}.

(** X13. The [await] of the batch build never rejects: whatever the
    stylesheets hold and whatever fails, it fulfils with one value per
    file the glob found. *)
Theorem batch_never_rejects (targetWithExt : list (Target * Extension)) (w : World Data) :
  (cli.build targetWithExt w).1 =
    Fulfilled (replicate (length (globby "**/*.mist.css" (files w))) tt).
Proof. apply build_fulfils. Qed.

(** X14. A stylesheet that cannot be read (it is gone when its turn comes):
    the step of the batch fulfils, prints [Error <path>: ENOENT ...] and
    does nothing else. *)
Theorem batch_reports_read_error (targetWithExt : list (Target * Extension))
    (mist : string) (w : World Data) :
  files w !! mist = None ->
  cli.buildFile targetWithExt mist w =
    (Fulfilled tt,
     record (console_error
               ("Error " +:+ mist +:+ ": "
                +:+ "ENOENT: no such file or directory, open '" +:+ mist +:+ "'")) w).
Proof. apply buildFile_read_error. Qed.

(** X15. A stylesheet the parser throws an Error on: the step of the batch
    fulfils, prints [Error <path>: <message>] and does nothing else; no
    renderer runs and no file is written. *)
Theorem batch_reports_parse_error (targetWithExt : list (Target * Extension))
    (mist text message : string) (w : World Data) :
  files w !! mist = Some text ->
  parse text = Throw (ErrorObject message) ->
  cli.buildFile targetWithExt mist w =
    (Fulfilled tt, record (console_error ("Error " +:+ mist +:+ ": " +:+ message)) w).
Proof. apply buildFile_parse_error. Qed.

(** X16. The cleanup pass leaves the set of files as it found it, for every
    list of targets, every tree and every result of the glob. *)
Theorem cleanup_never_deletes (targetWithExt : list (Target * Extension))
    (w : World Data) :
  files (cli.cleanup targetWithExt w).2 = files w.
Proof. apply cleanup_removes_nothing. Qed.

End passes.

(** ** The further properties at work on the sample imports *)

Lemma getTarget_returns_argument_witness :
  core.getTarget "vue" = Normal vue /\ "vue" = targetString vue.
Proof.
  assert (Hvue : core.getTarget "vue" = Normal vue) by reflexivity.
  split; [exact Hvue |].
  exact (proj1 (getTarget_returns_argument "vue" vue) Hvue).
Defined.

Lemma mapSetExtension_throws_witness :
  ("solid" ∉ ["react"; "hono"; "astro"; "vue"; "svelte"])
  /\ (cli.mapSetExtension ["react"; "solid"; "vue"] sample.orphaned).1 =
       Throw (ErrorObject "Invalid target option").
Proof.
  assert (Hsolid : "solid" ∉ ["react"; "hono"; "astro"; "vue"; "svelte"]).
  { apply (bool_decide_unpack _). vm_compute. exact I. }
  split; [exact Hsolid |].
  exact (mapSetExtension_throws [react] "solid" ["vue"] sample.orphaned Hsolid).
Defined.

Lemma createFile_stores_result_witness :
  core.rendered (core.switchTarget react (NodePath.basename "ui/Button.mist.css" ".mist.css")
                   "button") = Normal "react:Button:button"
  /\ denied sample.orphaned !! "ui/Button.mist.tsx" = None
  /\ (core.createFile ["button"] "ui/Button.mist.css" react ext_tsx sample.orphaned).1
     = Fulfilled tt
  /\ files (core.createFile ["button"] "ui/Button.mist.css" react ext_tsx
              sample.orphaned).2
     = <["ui/Button.mist.tsx" := "react:Button:button"]> (files sample.orphaned)
  /\ denied (core.createFile ["button"] "ui/Button.mist.css" react ext_tsx
               sample.orphaned).2
     = denied sample.orphaned.
Proof.
  split; [reflexivity | split; [reflexivity |]].
  apply (createFile_stores_result "button" [] "ui/Button.mist.css" react ext_tsx
           "react:Button:button" sample.orphaned); reflexivity.
Defined.

Lemma createFile_frame_witness :
  "ui/Old.mist.tsx"
    <> JSString.replaceAtEnd (JSString.anchoredBody "\.css$") (extString ext_astro)
         "ui/Button.mist.css"
  /\ files (core.createFile ["button"] "ui/Button.mist.css" astro ext_astro
              sample.orphaned).2 !! "ui/Old.mist.tsx"
     = files sample.orphaned !! "ui/Old.mist.tsx"
  /\ denied (core.createFile ["button"] "ui/Button.mist.css" astro ext_astro
               sample.orphaned).2
     = denied sample.orphaned.
Proof.
  assert (Hp : "ui/Old.mist.tsx"
                 <> JSString.replaceAtEnd (JSString.anchoredBody "\.css$")
                      (extString ext_astro) "ui/Button.mist.css").
  { vm_compute. discriminate. }
  split; [exact Hp |].
  exact (createFile_frame ["button"] "ui/Button.mist.css" astro ext_astro
           "ui/Old.mist.tsx" sample.orphaned Hp).
Defined.

Lemma createFile_refused_write_witness :
  core.rendered (core.switchTarget react (NodePath.basename "ui/Card.mist.css" ".mist.css")
                   "card") = Normal "react:Card:card"
  /\ denied sample.refused !! "ui/Card.mist.tsx"
     = Some "EACCES: permission denied, open 'ui/Card.mist.tsx'"
  /\ (core.createFile ["card"] "ui/Card.mist.css" react ext_tsx sample.refused).1
     = Rejected (ErrorObject "EACCES: permission denied, open 'ui/Card.mist.tsx'")
  /\ files (core.createFile ["card"] "ui/Card.mist.css" react ext_tsx sample.refused).2
     = files sample.refused
  /\ reported (since sample.refused
                 (core.createFile ["card"] "ui/Card.mist.css" react ext_tsx
                    sample.refused).2) = [].
Proof.
  split; [reflexivity | split; [reflexivity |]].
  apply (createFile_refused_write "card" [] "ui/Card.mist.css" react ext_tsx
           "react:Card:card" "EACCES: permission denied, open 'ui/Card.mist.tsx'"
           sample.refused); reflexivity.
Defined.


Lemma createFile_other_suffix_witness :
  (forall base, "notes.txt" <> base +:+ ".css")
  /\ writtenPaths (since sample.orphaned
                     (core.createFile ["x"] "notes.txt" vue ext_tsx sample.orphaned).2)
     = ["notes.txt"].
Proof.
  assert (Hsuffix : forall base, "notes.txt" <> base +:+ ".css").
  { intros base Heq. apply (f_equal (fun s => last (JSString.chars s))) in Heq.
    rewrite last_with_css in Heq. vm_compute in Heq. discriminate. }
  split; [exact Hsuffix |].
  apply (createFile_other_suffix "x" [] "notes.txt" vue ext_tsx "vue:notes.txt:x"
           sample.orphaned Hsuffix). reflexivity.
Defined.

Lemma createFiles_frame_witness :
  (forall entry, entry ∈ [(react, ext_tsx); (astro, ext_astro)] ->
     "ui/Old.mist.tsx"
       <> JSString.replaceAtEnd (JSString.anchoredBody "\.css$") (extString entry.2)
            "ui/Button.mist.css")
  /\ files (core.createFiles ["button"] "ui/Button.mist.css"
              [(react, ext_tsx); (astro, ext_astro)] sample.orphaned).2
       !! "ui/Old.mist.tsx"
     = files sample.orphaned !! "ui/Old.mist.tsx".
Proof.
  assert (Hp : forall entry, entry ∈ [(react, ext_tsx); (astro, ext_astro)] ->
     "ui/Old.mist.tsx"
       <> JSString.replaceAtEnd (JSString.anchoredBody "\.css$") (extString entry.2)
            "ui/Button.mist.css").
  { intros entry Hin. rewrite !elem_of_cons, elem_of_nil in Hin.
    destruct Hin as [-> | [-> | []]]; vm_compute; discriminate. }
  split; [exact Hp |].
  exact (proj1 (createFiles_frame ["button"] "ui/Button.mist.css"
                  [(react, ext_tsx); (astro, ext_astro)] "ui/Old.mist.tsx"
                  sample.orphaned Hp)).
Defined.


Lemma batch_reports_read_error_witness :
  files sample.orphaned !! "ui/Gone.mist.css" = None
  /\ cli.buildFile [(react, ext_tsx)] "ui/Gone.mist.css" sample.orphaned =
       (Fulfilled tt,
        record (console_error
                  "Error ui/Gone.mist.css: ENOENT: no such file or directory, open 'ui/Gone.mist.css'")
          sample.orphaned).
Proof.
  split; [reflexivity |].
  apply (batch_reports_read_error [(react, ext_tsx)] "ui/Gone.mist.css" sample.orphaned).
  reflexivity.
Defined.

Lemma batch_reports_parse_error_witness :
  files (mkWorld {[ "ui/Bad.mist.css" := "{" ]} ∅ [] : World string) !! "ui/Bad.mist.css"
    = Some "{"
  /\ parse "{" = Throw (ErrorObject "Unclosed block")
  /\ cli.buildFile [(react, ext_tsx)] "ui/Bad.mist.css"
       (mkWorld {[ "ui/Bad.mist.css" := "{" ]} ∅ []) =
       (Fulfilled tt,
        record (console_error "Error ui/Bad.mist.css: Unclosed block")
          (mkWorld {[ "ui/Bad.mist.css" := "{" ]} ∅ [])).
Proof.
  split; [reflexivity | split; [reflexivity |]].
  apply (batch_reports_parse_error [(react, ext_tsx)] "ui/Bad.mist.css" "{"
           "Unclosed block" (mkWorld {[ "ui/Bad.mist.css" := "{" ]} ∅ []));
    reflexivity.
Defined.

Lemma unlink_rebuilt_path_witness :
  JSString.lineTerminator "t" = false
  /\ cli.unlink "ui/Old.mist.tsx" ext_tsx sample.orphaned =
       (Rejected (fs.noEntry "unlink" "ui/Old.mis.css"),
        record (unlink_call "ui/Old.mis.css") sample.orphaned).
Proof.
  split; [reflexivity |].
  exact (unlink_rebuilt_path "ui/Old.mis" "t" ext_tsx sample.orphaned eq_refl).
Defined.

Lemma bin_createFiles_simulates_witness :
  sameButFlush sample.orphaned sample.orphaned
  /\ (bin.createFiles "ui/Button.mist.css" [(react, ext_tsx)] sample.orphaned).1
     = (cli.buildFile [(react, ext_tsx)] "ui/Button.mist.css" sample.orphaned).1
  /\ sameButFlush
       (bin.createFiles "ui/Button.mist.css" [(react, ext_tsx)] sample.orphaned).2
       (cli.buildFile [(react, ext_tsx)] "ui/Button.mist.css" sample.orphaned).2.
Proof.
  assert (Hsame : sameButFlush sample.orphaned sample.orphaned)
    by (repeat split; reflexivity).
  split; [exact Hsame |].
  exact (bin_createFiles_simulates "ui/Button.mist.css" [(react, ext_tsx)]
           sample.orphaned sample.orphaned Hsame).
Defined.

